(** * temp_extractor.py: the mapper and the reducer of the TempExtractor job

    A shallow embedding of [src/temp_extractor.py].  The job has two stages:
    [mapper] decodes one fixed-width weather record into at most one
    (year, temperature) pair and [reducer] re-emits the temperatures grouped
    under one year as text lines.

    Python strings are modelled as [string]: a character is an 8-bit code
    point (the ASCII and Latin-1 range), which covers every record of the
    fixed-column format.  Python integers are modelled as [Z].  A generator
    is modelled by the list of the values it yields, and a call that may
    raise by a [result].  The module [Unicode] has the mapper on strings of
    any code points, and the module [Effects] runs the mapper as a generator
    in an explicit world. *)

From Stdlib Require Import ZArith String Ascii List Bool Lia.
Import ListNotations.

Open Scope string_scope.
Open Scope Z_scope.

(** ** The Python built-ins the job uses *)

Module Py.

Inductive exn : Type :=
| ValueError
| IndexError.

Inductive result (A : Type) : Type :=
| Ok (a : A)
| Raise (e : exn).

Arguments Ok {A} a.
Arguments Raise {A} e.

Definition bind {A B : Type} (m : result A) (k : A -> result B) : result B :=
  match m with
  | Ok a => k a
  | Raise e => Raise e
  end.

(** [len(s)] *)
Definition len (s : string) : nat := String.length s.

(** [s[i:]] for a constant [i >= 0] *)
Fixpoint slice_from (i : nat) (s : string) : string :=
  match i, s with
  | O, _ => s
  | S i', String _ s' => slice_from i' s'
  | S _, EmptyString => EmptyString
  end.

(** [s[:n]] for a constant [n >= 0] *)
Fixpoint slice_to (n : nat) (s : string) : string :=
  match n, s with
  | O, _ => EmptyString
  | S n', String c s' => String c (slice_to n' s')
  | S _, EmptyString => EmptyString
  end.

(** [s[i:j]] for constants [0 <= i], [0 <= j]: a slice never raises, it is
    cut to the characters that exist. *)
Definition slice (i j : nat) (s : string) : string :=
  slice_to (j - i) (slice_from i s).

(** [s[i]] for a constant [i >= 0]: a string of one character, or
    IndexError when [i] is out of range. *)
Definition getitem (s : string) (i : nat) : result string :=
  match String.get i s with
  | Some c => Ok (String c EmptyString)
  | None => Raise IndexError
  end.

(** [s.startswith(p)] *)
Fixpoint startswith (s p : string) : bool :=
  match p, s with
  | EmptyString, _ => true
  | String a p', String b s' => Ascii.eqb a b && startswith s' p'
  | String _ _, EmptyString => false
  end.

(** [needle in hay] on strings: [needle] occurs in [hay] as a substring. *)
Fixpoint contains (hay needle : string) : bool :=
  startswith hay needle ||
  match hay with
  | EmptyString => false
  | String _ hay' => contains hay' needle
  end.

(** The code point of a character. *)
Definition code (c : ascii) : Z := Z.of_N (N_of_ascii c).

(** The characters [str.isspace] counts as whitespace, among the code
    points below 256: TAB, LF, VT, FF, CR, FS, GS, RS, US, SPACE, NEL and
    NBSP. *)
Definition is_whitespace (c : ascii) : bool :=
  let n := code c in
  ((9 <=? n) && (n <=? 13)) || ((28 <=? n) && (n <=? 32))
  || (n =? 133) || (n =? 160).

Fixpoint all_chars (p : ascii -> bool) (s : string) : bool :=
  match s with
  | EmptyString => true
  | String c s' => p c && all_chars p s'
  end.

(** [s.isspace()]: at least one character, and all of them whitespace. *)
Definition isspace (s : string) : bool :=
  match s with
  | EmptyString => false
  | String _ _ => all_chars is_whitespace s
  end.

(** *** [int(s)] in base 10 *)

(** The whitespace [int] skips around the literal: the C-locale spaces
    TAB, LF, VT, FF, CR and SPACE, and the whitespace outside ASCII (NEL
    and NBSP below 256).  The separators FS, GS, RS and US are whitespace
    for [str.isspace] but not here. *)
Definition is_int_space (c : ascii) : bool :=
  let n := code c in
  ((9 <=? n) && (n <=? 13)) || (n =? 32) || (n =? 133) || (n =? 160).

Definition is_digit (c : ascii) : bool :=
  let n := code c in (48 <=? n) && (n <=? 57).

Definition digit_value (c : ascii) : option Z :=
  if is_digit c then Some (code c - 48) else None.

Fixpoint skip_space (s : string) : string :=
  match s with
  | String c s' => if is_int_space c then skip_space s' else s
  | EmptyString => s
  end.

(** The digits that follow a digit already read into [acc]: more digits,
    each possibly preceded by one underscore.  [None] when an underscore
    is not followed by a digit; otherwise the value and the unread rest. *)
Fixpoint scan_digits (acc : Z) (s : string) : option (Z * string) :=
  match s with
  | EmptyString => Some (acc, s)
  | String c r =>
      match digit_value c with
      | Some d => scan_digits (10 * acc + d) r
      | None =>
          if Ascii.eqb c "_" then
            match r with
            | String c' r' =>
                match digit_value c' with
                | Some d => scan_digits (10 * acc + d) r'
                | None => None
                end
            | EmptyString => None
            end
          else Some (acc, s)
      end
  end.

(** An unsigned literal: a first digit, then [scan_digits]. *)
Definition scan_number (s : string) : option (Z * string) :=
  match s with
  | String c r =>
      match digit_value c with
      | Some d => scan_digits d r
      | None => None
      end
  | EmptyString => None
  end.

(** The optional sign in front of the digits. *)
Definition split_sign (s : string) : Z * string :=
  match s with
  | String c r =>
      if Ascii.eqb c "+" then (1, r)
      else if Ascii.eqb c "-" then (-1, r)
      else (1, s)
  | EmptyString => (1, s)
  end.

(** [int(s)]: whitespace, an optional sign, the digits, whitespace, end
    of string; ValueError otherwise. *)
Definition int (s : string) : result Z :=
  let '(sign, s2) := split_sign (skip_space s) in
  match scan_number s2 with
  | None => Raise ValueError
  | Some (n, rest) =>
      match skip_space rest with
      | EmptyString => Ok (sign * n)
      | String _ _ => Raise ValueError
      end
  end.

(** *** [str(n)] for an integer, as an f-string formats it *)

Definition digit_char (d : Z) : ascii := ascii_of_N (Z.to_N (48 + d)).

(** The digits of [n >= 0] in front of [acc], most significant first. *)
Fixpoint digits_acc (fuel : nat) (n : Z) (acc : string) : string :=
  let acc' := String (digit_char (n mod 10)) acc in
  match fuel with
  | O => acc'
  | S fuel' => if n <? 10 then acc' else digits_acc fuel' (n / 10) acc'
  end.

Definition str_nonneg (n : Z) : string :=
  digits_acc (Z.to_nat (Z.log2 n)) n EmptyString.

Definition str_int (n : Z) : string :=
  if n <? 0 then String "-" (str_nonneg (- n)) else str_nonneg n.

End Py.

(** ** The job *)

Module TempExtractor.
Import Py.

Notation "x <- m ;; k" := (bind m (fun x => k))
  (at level 61, m at next level, right associativity).

(** [def mapper(self, _, line)], a generator: the pairs it yields, or the
    exception that leaves it.  [self] is the job object and [_key] the
    input key; the body reads neither. *)
Definition mapper {Job Key : Type} (self : Job) (_key : Key) (line : string)
  : result (list (string * Z)) :=
  if (len line <? 93)%nat then Ok []
  else
    let year := slice 15 19 line in
    let temp_str := slice 87 92 line in
    let temp_str :=
      if startswith temp_str "+" then slice_from 1 temp_str else temp_str in
    if String.eqb temp_str "" || isspace temp_str then Ok []
    else
      match int temp_str with
      | Raise ValueError => Ok []
      | Raise e => Raise e
      | Ok temp =>
          quality <- getitem line 92 ;;
          if negb (temp =? 9999) && contains "01459" quality
          then Ok [(year, temp)]
          else Ok []
      end.

(** The f-string ["{year} {temp}"]. *)
Definition format_line (year : string) (temp : Z) : string :=
  year ++ " " ++ str_int temp.

(** [def reducer(self, year, temps)], a generator over the temperatures
    of one year: one (None, line) pair for each, as the loop meets them. *)
Fixpoint reducer {Job : Type} (self : Job) (year : string) (temps : list Z)
  : list (option string * string) :=
  match temps with
  | [] => []
  | temp :: temps' => (None, format_line year temp) :: reducer self year temps'
  end.

End TempExtractor.

(** ** The mapper on strings of any code points

    A Python string holds code points up to 0x10FFFF.  For the code points
    from 128 on, [str.isspace] and [int] consult the Unicode character
    database of the interpreter; the two tables they read are kept as
    parameters here, so that what is proved holds for every version of the
    database. *)

Module Unicode.
Import Py.

Definition str : Type := list Z.

(** A string literal of the source, as code points. *)
Definition of_string (s : string) : str := map code (list_ascii_of_string s).

Definition len (s : str) : nat := List.length s.

Definition slice_from (i : nat) (s : str) : str := skipn i s.

Definition slice (i j : nat) (s : str) : str := firstn (j - i) (skipn i s).

Definition getitem (s : str) (i : nat) : result str :=
  match nth_error s i with
  | Some c => Ok [c]
  | None => Raise IndexError
  end.

Fixpoint startswith (s p : str) : bool :=
  match p, s with
  | [], _ => true
  | a :: p', b :: s' => (a =? b) && startswith s' p'
  | _ :: _, [] => false
  end.

Fixpoint contains (hay needle : str) : bool :=
  startswith hay needle ||
  match hay with
  | [] => false
  | _ :: hay' => contains hay' needle
  end.

(** [s == ""] *)
Definition is_empty (s : str) : bool :=
  match s with
  | [] => true
  | _ :: _ => false
  end.

Section Database.

(** Whether a code point from 128 on is whitespace, and the value of a code
    point from 128 on that is a decimal digit. *)
Variable uni_space : Z -> bool.
Variable uni_decimal : Z -> option Z.

(** [Py_UNICODE_ISSPACE]: a table for ASCII, the database beyond. *)
Definition is_whitespace (c : Z) : bool :=
  if c <? 128
  then ((9 <=? c) && (c <=? 13)) || ((28 <=? c) && (c <=? 32))
  else uni_space c.

(** [s.isspace()] *)
Definition isspace (s : str) : bool :=
  match s with
  | [] => false
  | _ :: _ => forallb is_whitespace s
  end.

(** [Py_UNICODE_TODECIMAL]: the digits of ASCII, the database beyond; a
    value outside 0..9 is no digit. *)
Definition to_decimal (c : Z) : option Z :=
  if c <? 128
  then (if (48 <=? c) && (c <=? 57) then Some (c - 48) else None)
  else match uni_decimal c with
       | Some d => if (0 <=? d) && (d <=? 9) then Some d else None
       | None => None
       end.

(** What [int] does to a character before it parses: a code point below
    127 stays, whitespace becomes a space, a decimal digit becomes the
    ASCII digit of its value and anything else a question mark. *)
Definition to_ascii (c : Z) : Z :=
  if c <? 127 then c
  else if is_whitespace c then 32
  else match to_decimal c with
       | Some d => 48 + d
       | None => 63
       end.

Definition ascii_form (s : str) : string :=
  string_of_list_ascii (map (fun c => ascii_of_N (Z.to_N (to_ascii c))) s).

(** [int(s)]: the ASCII parse of the string so rewritten. *)
Definition int (s : str) : result Z := Py.int (ascii_form s).

(** [def mapper(self, _, line)] *)
Definition mapper {Job Key : Type} (self : Job) (_key : Key) (line : str)
  : result (list (str * Z)) :=
  if (len line <? 93)%nat then Ok []
  else
    let year := slice 15 19 line in
    let temp_str := slice 87 92 line in
    let temp_str :=
      if startswith temp_str (of_string "+")
      then slice_from 1 temp_str else temp_str in
    if is_empty temp_str || isspace temp_str then Ok []
    else
      match int temp_str with
      | Raise ValueError => Ok []
      | Raise e => Raise e
      | Ok temp =>
          bind (getitem line 92) (fun quality =>
          if negb (temp =? 9999) && contains (of_string "01459") quality
          then Ok [(year, temp)]
          else Ok [])
      end.

End Database.

(** A database for examples: the whitespace beyond ASCII and, of the
    decimal digits, the Arabic-Indic ones. *)
Definition example_space (c : Z) : bool :=
  existsb (Z.eqb c)
    [133; 160; 5760; 8192; 8193; 8194; 8195; 8196; 8197; 8198; 8199; 8200;
     8201; 8202; 8232; 8233; 8239; 8287; 12288].

Definition example_decimal (c : Z) : option Z :=
  if (1632 <=? c) && (c <=? 1641) then Some (c - 1632) else None.

End Unicode.

(** ** The mapper as a generator that runs in a world

    What the body of a method can reach besides its arguments is kept in a
    [world]: the attributes of the job object and the globals of the
    module.  A generator is run from a world and leaves the values it
    yielded, how it ended and the world after it. *)

Module Effects.
Import Py.

Inductive value : Type :=
| VNone
| VInt (z : Z)
| VStr (s : string).

Definition store : Type := list (string * value).

Fixpoint lookup (name : string) (st : store) : option value :=
  match st with
  | [] => None
  | (n, v) :: st' => if String.eqb n name then Some v else lookup name st'
  end.

Record world : Type := {
  attributes : store;
  globals : store
}.

Record run (Y A : Type) : Type := {
  yielded : list Y;
  ending : result A;
  world_after : world
}.

Arguments yielded {Y A} r.
Arguments ending {Y A} r.
Arguments world_after {Y A} r.

Definition gen (Y A : Type) : Type := world -> run Y A.

Definition ret {Y A : Type} (a : A) : gen Y A :=
  fun w => {| yielded := []; ending := Ok a; world_after := w |}.

Definition lift {Y A : Type} (r : result A) : gen Y A :=
  fun w => {| yielded := []; ending := r; world_after := w |}.

Definition yield {Y : Type} (y : Y) : gen Y unit :=
  fun w => {| yielded := [y]; ending := Ok tt; world_after := w |}.

Definition gbind {Y A B : Type} (m : gen Y A) (k : A -> gen Y B) : gen Y B :=
  fun w =>
    let r := m w in
    match ending r with
    | Ok a =>
        let r' := k a (world_after r) in
        {| yielded := (yielded r ++ yielded r')%list;
           ending := ending r';
           world_after := world_after r' |}
    | Raise e =>
        {| yielded := yielded r; ending := Raise e;
           world_after := world_after r |}
    end.

(** [getattr(self, name, None)] and [self.name = v] *)
Definition getattr {Y : Type} (name : string) : gen Y (option value) :=
  fun w => {| yielded := []; ending := Ok (lookup name (attributes w));
              world_after := w |}.

Definition setattr {Y : Type} (name : string) (v : value) : gen Y unit :=
  fun w => {| yielded := []; ending := Ok tt;
              world_after := {| attributes := (name, v) :: attributes w;
                                globals := globals w |} |}.

(** The value of a global name, [None] when it is not bound. *)
Definition global {Y : Type} (name : string) : gen Y (option value) :=
  fun w => {| yielded := []; ending := Ok (lookup name (globals w));
              world_after := w |}.

(** [def mapper(self, _, line)]: the job object is in the world, [key] is
    the argument the source calls [_]. *)
Definition mapper (key : value) (line : string) : gen (string * Z) unit :=
  if (len line <? 93)%nat then ret tt
  else
    let year := slice 15 19 line in
    let temp_str := slice 87 92 line in
    let temp_str :=
      if startswith temp_str "+" then slice_from 1 temp_str else temp_str in
    if String.eqb temp_str "" || isspace temp_str then ret tt
    else
      match int temp_str with
      | Raise ValueError => ret tt
      | Raise e => lift (Raise e)
      | Ok temp =>
          gbind (lift (getitem line 92)) (fun quality =>
          if negb (temp =? 9999) && contains "01459" quality
          then yield (year, temp)
          else ret tt)
      end.

(** A generator that does read the world, for comparison: it yields the
    attribute [name] of the job object when that is an integer. *)
Definition attribute_reader (name : string) : gen Z unit :=
  gbind (getattr name) (fun v =>
  match v with
  | Some (VInt z) => yield z
  | _ => ret tt
  end).

End Effects.

Import Py TempExtractor.

(** ** Vocabulary of the specification *)

(** Sign normalisation in the specification's words: one leading '+' is
    dropped, anything else (a leading '-' too) is kept. *)
Definition strip_plus (s : string) : string :=
  match s with
  | String c r => if Ascii.eqb c "+" then r else s
  | EmptyString => s
  end.

(** The temperature field of a record after sign normalisation. *)
Definition temp_field (line : string) : string :=
  strip_plus (slice 87 92 line).

(** The accepted quality codes. *)
Definition good_quality (q : ascii) : Prop :=
  q = "0"%char \/ q = "1"%char \/ q = "4"%char \/ q = "5"%char \/ q = "9"%char.

Definition good_qualityb (q : ascii) : bool :=
  existsb (Ascii.eqb q) ["0"; "1"; "4"; "5"; "9"]%char.

(** A record with the given year, temperature field and quality code, and
    filler in the columns the mapper does not read. *)
Definition filler (n : nat) : string := string_of_list_ascii (repeat "."%char n).

Definition record (year temp quality : string) : string :=
  filler 15 ++ year ++ filler 68 ++ temp ++ quality.

(** The shape of a string that [int] accepts, stated without the parser:
    whitespace, an optional sign, digits in which single underscores may
    separate two digits, whitespace. *)
Inductive digit_tail : string -> Prop :=
| tail_end : digit_tail EmptyString
| tail_digit (c : ascii) (s : string) :
    is_digit c = true -> digit_tail s -> digit_tail (String c s)
| tail_under (c : ascii) (s : string) :
    is_digit c = true -> digit_tail s -> digit_tail (String "_" (String c s)).

Definition digit_run (s : string) : Prop :=
  exists c t, s = String c t /\ is_digit c = true /\ digit_tail t.

Definition int_literal (s : string) : Prop :=
  exists pre sg body post,
    s = pre ++ sg ++ body ++ post /\
    all_chars is_int_space pre = true /\
    (sg = "" \/ sg = "+" \/ sg = "-") /\
    digit_run body /\
    all_chars is_int_space post = true.

(** The value of a string of decimal digits read after [acc]. *)
Fixpoint decimal_acc (acc : Z) (ds : string) : Z :=
  match ds with
  | EmptyString => acc
  | String c ds' => decimal_acc (10 * acc + (code c - 48)) ds'
  end.

(** The decimal representation of [n >= 0] in the specification's words:
    digits only, at least one, of value [n], and no zero in front of a
    longer numeral. *)
Definition canonical_decimal (n : Z) (ds : string) : Prop :=
  ds <> "" /\
  all_chars is_digit ds = true /\
  decimal_acc 0 ds = n /\
  (startswith ds "0" = true -> ds = "0").

(** The mapper yields the pair [(year, temp)] on [line]. *)
Definition emits {Job Key : Type} (self : Job) (key : Key)
    (line year : string) (temp : Z) : Prop :=
  exists out, mapper self key line = Ok out /\ In (year, temp) out.

(** A field with a character that is not a digit, a first '-' apart. *)
Definition has_stray_char (s : string) : bool :=
  match s with
  | String c r =>
      if Ascii.eqb c "-" then negb (all_chars is_digit r)
      else negb (all_chars is_digit s)
  | EmptyString => false
  end.

(** Sign normalisation and the temperature field on strings of any code
    points; 43 is the code point of '+'. *)
Definition unicode_strip_plus (s : Unicode.str) : Unicode.str :=
  match s with
  | c :: r => if c =? 43 then r else s
  | [] => s
  end.

Definition unicode_temp_field (line : Unicode.str) : Unicode.str :=
  unicode_strip_plus (Unicode.slice 87 92 line).

(** A record of any code points: year and quality code as in [record], the
    temperature field given by its code points. *)
Definition unicode_record (year : string) (temp : Unicode.str)
    (quality : string) : Unicode.str :=
  (Unicode.of_string (filler 15 ++ year ++ filler 68)
   ++ temp ++ Unicode.of_string quality)%list.

(** The field 00078 written in Arabic-Indic digits (U+0660 to U+0669). *)
Definition arabic_indic_00078 : Unicode.str := [1632; 1632; 1632; 1639; 1640].

(** The database on the 8-bit code points: NEL and NBSP are the whitespace
    there, and no decimal digit lies beyond ASCII. *)
Definition latin1_space (c : Z) : bool := (c =? 133) || (c =? 160).

Definition latin1_decimal (c : Z) : option Z := None.

(** A string with every character replaced. *)
Fixpoint map_string (f : ascii -> ascii) (s : string) : string :=
  match s with
  | EmptyString => EmptyString
  | String c s' => String (f c) (map_string f s')
  end.

(** What [int] makes of an 8-bit character before it parses. *)
Definition latin1_to_ascii (c : ascii) : ascii :=
  ascii_of_N (Z.to_N (Unicode.to_ascii latin1_space latin1_decimal (code c))).

(** The pairs of the 8-bit mapper as pairs of the general one. *)
Definition unicode_pairs (out : list (string * Z)) : list (Unicode.str * Z) :=
  map (fun p => (Unicode.of_string (fst p), snd p)) out.

(** ** Characters *)

Ltac bool_to_prop :=
  repeat match goal with
  | H : _ && _ = true |- _ => apply andb_true_iff in H; destruct H
  | H : _ || _ = true |- _ => apply orb_true_iff in H; destruct H
  | H : _ || _ = false |- _ => apply orb_false_iff in H; destruct H
  | H : (_ <=? _) = true |- _ => apply Z.leb_le in H
  | H : (_ <=? _) = false |- _ => apply Z.leb_gt in H
  | H : (_ <? _) = true |- _ => apply Z.ltb_lt in H
  | H : (_ <? _) = false |- _ => apply Z.ltb_ge in H
  | H : (_ =? _) = true |- _ => apply Z.eqb_eq in H
  | H : (_ =? _) = false |- _ => apply Z.eqb_neq in H
  end.

Lemma code_range (c : ascii) : 0 <= code c < 256.
Proof.
  unfold code. pose proof (N_ascii_bounded c). lia.
Qed.

Lemma code_inj (a b : ascii) : code a = code b -> a = b.
Proof.
  unfold code. intros H. apply N2Z.inj in H.
  rewrite <- (ascii_N_embedding a), <- (ascii_N_embedding b). now rewrite H.
Qed.

Lemma eqb_code (a b : ascii) : Ascii.eqb a b = (code a =? code b).
Proof.
  destruct (Ascii.eqb_spec a b) as [->|N].
  - now rewrite Z.eqb_refl.
  - symmetry. apply Z.eqb_neq. intros E. now apply N, code_inj.
Qed.

Lemma digit_value_some (c : ascii) (d : Z) :
  digit_value c = Some d -> is_digit c = true /\ d = code c - 48 /\ 0 <= d <= 9.
Proof.
  unfold digit_value. destruct (is_digit c) eqn:E; [|discriminate].
  intros [= <-]. unfold is_digit in E. bool_to_prop. repeat split; lia.
Qed.

Lemma digit_value_digit (c : ascii) :
  is_digit c = true -> digit_value c = Some (code c - 48).
Proof. unfold digit_value. now intros ->. Qed.

Lemma digit_value_none (c : ascii) :
  is_digit c = false -> digit_value c = None.
Proof. unfold digit_value. now intros ->. Qed.

Lemma whitespace_not_digit (c : ascii) :
  is_whitespace c = true -> is_digit c = false.
Proof.
  unfold is_whitespace, is_digit. intros H.
  destruct ((48 <=? code c) && (code c <=? 57)) eqn:E; [|reflexivity].
  bool_to_prop; lia.
Qed.

Lemma whitespace_not_sign (c : ascii) :
  is_whitespace c = true ->
  Ascii.eqb c "+" = false /\ Ascii.eqb c "-" = false.
Proof.
  unfold is_whitespace. rewrite !eqb_code. intros H.
  change (code "+") with 43. change (code "-") with 45.
  split; apply Z.eqb_neq; bool_to_prop; lia.
Qed.

Lemma int_space_whitespace (c : ascii) :
  is_int_space c = true -> is_whitespace c = true.
Proof.
  unfold is_int_space, is_whitespace. intros H.
  repeat (apply orb_true_iff; rewrite ?andb_true_iff, ?Z.leb_le, ?Z.eqb_eq).
  bool_to_prop; lia.
Qed.

Lemma digit_not_int_space (c : ascii) :
  is_digit c = true -> is_int_space c = false.
Proof.
  intros H. destruct (is_int_space c) eqn:E; [|reflexivity].
  apply int_space_whitespace, whitespace_not_digit in E. congruence.
Qed.

(** ** Slices and indexing *)

Lemma length_slice_from (i : nat) (s : string) :
  String.length (slice_from i s) = (String.length s - i)%nat.
Proof.
  revert s. induction i as [|i IH]; intros s; simpl.
  - lia.
  - destruct s as [|c s]; simpl; [reflexivity|apply IH].
Qed.

Lemma length_slice_to (n : nat) (s : string) :
  String.length (slice_to n s) = Nat.min n (String.length s).
Proof.
  revert s. induction n as [|n IH]; intros s; simpl.
  - reflexivity.
  - destruct s as [|c s]; simpl; [reflexivity|now rewrite IH].
Qed.

Lemma length_slice (i j : nat) (s : string) :
  (i <= j)%nat -> (j <= len s)%nat -> len (slice i j s) = (j - i)%nat.
Proof.
  unfold slice, len. intros Hij Hj.
  rewrite length_slice_to, length_slice_from. lia.
Qed.

Lemma get_in_range (i : nat) (s : string) :
  (i < String.length s)%nat -> exists c, String.get i s = Some c.
Proof.
  revert i. induction s as [|c s IH]; intros i H; simpl in *.
  - lia.
  - destruct i as [|i]; [now exists c|]. apply IH. lia.
Qed.

Lemma get_out_of_range (i : nat) (s : string) :
  (String.length s <= i)%nat -> String.get i s = None.
Proof.
  revert i. induction s as [|c s IH]; intros i H; simpl in *.
  - reflexivity.
  - destruct i as [|i]; [lia|]. apply IH. lia.
Qed.

Lemma startswith_plus (s : string) :
  (if startswith s "+" then slice_from 1 s else s) = strip_plus s.
Proof.
  destruct s as [|c r]; [reflexivity|].
  cbn [startswith strip_plus]. rewrite (Ascii.eqb_sym "+" c).
  destruct (Ascii.eqb c "+"); [|reflexivity].
  now destruct r.
Qed.

Lemma contains_quality (q : ascii) :
  contains "01459" (String q EmptyString) = good_qualityb q.
Proof.
  unfold good_qualityb. simpl.
  rewrite !andb_true_r, !orb_false_r. reflexivity.
Qed.

Lemma good_qualityb_spec (q : ascii) :
  good_qualityb q = true <-> good_quality q.
Proof.
  unfold good_qualityb, good_quality. cbn [existsb].
  rewrite !orb_true_iff, !Ascii.eqb_eq. intuition discriminate.
Qed.

(** ** [int] raises nothing but ValueError, and rejects blank strings *)

Lemma int_raises_ValueError (s : string) (e : exn) :
  int s = Raise e -> e = ValueError.
Proof.
  unfold int. destruct (split_sign (skip_space s)) as [sign s2].
  destruct (scan_number s2) as [[n rest]|].
  - destruct (skip_space rest); [discriminate|]. now intros [= <-].
  - now intros [= <-].
Qed.

Lemma all_whitespace_skip_space (s : string) :
  all_chars is_whitespace s = true ->
  all_chars is_whitespace (skip_space s) = true.
Proof.
  induction s as [|c s IH]; simpl; [reflexivity|].
  intros H. apply andb_true_iff in H as [Hc Hs].
  destruct (is_int_space c); [now apply IH|].
  simpl. now rewrite Hc, Hs.
Qed.

Lemma int_blank (s : string) :
  all_chars is_whitespace s = true -> int s = Raise ValueError.
Proof.
  intros H. apply all_whitespace_skip_space in H.
  unfold int. destruct (skip_space s) as [|c r]; simpl; [reflexivity|].
  simpl in H. apply andb_true_iff in H as [Hc _].
  destruct (whitespace_not_sign c Hc) as [-> ->]. simpl.
  now rewrite (digit_value_none c (whitespace_not_digit c Hc)).
Qed.

Lemma int_ok_not_blank (s : string) (z : Z) :
  int s = Ok z -> String.eqb s "" || isspace s = false.
Proof.
  intros H. destruct s as [|c r]; [discriminate|].
  simpl String.eqb. unfold isspace.
  destruct (all_chars is_whitespace (String c r)) eqn:E; [|reflexivity].
  rewrite (int_blank _ E) in H. discriminate.
Qed.

(** ** The mapper on a record of full length *)

Section Mapper.
Context {Job Key : Type} (self : Job) (key : Key).

Lemma mapper_short (line : string) :
  (len line < 93)%nat -> mapper self key line = Ok [].
Proof.
  intros H. unfold mapper.
  now replace (len line <? 93)%nat with true by (symmetry; now apply Nat.ltb_lt).
Qed.

Lemma mapper_unparsed (line : string) (e : exn) :
  (93 <= len line)%nat ->
  int (temp_field line) = Raise e ->
  mapper self key line = Ok [].
Proof.
  intros H E. unfold mapper.
  replace (len line <? 93)%nat with false by (symmetry; apply Nat.ltb_ge; lia).
  rewrite startswith_plus. fold (temp_field line).
  destruct (String.eqb (temp_field line) "" || isspace (temp_field line));
    [reflexivity|].
  rewrite E. now rewrite (int_raises_ValueError _ _ E).
Qed.

Lemma mapper_parsed (line : string) (temp : Z) :
  (93 <= len line)%nat ->
  int (temp_field line) = Ok temp ->
  exists q, String.get 92 line = Some q /\
    mapper self key line =
      if negb (temp =? 9999) && good_qualityb q
      then Ok [(slice 15 19 line, temp)] else Ok [].
Proof.
  intros H E.
  destruct (get_in_range 92 line) as [q Hq]; [unfold len in H; lia|].
  exists q. split; [exact Hq|]. unfold mapper.
  replace (len line <? 93)%nat with false by (symmetry; apply Nat.ltb_ge; lia).
  rewrite startswith_plus. fold (temp_field line).
  rewrite (int_ok_not_blank _ _ E), E.
  unfold getitem. rewrite Hq. cbn [bind].
  now rewrite contains_quality.
Qed.

End Mapper.

(** ** The strings [int] accepts *)

Lemma skip_space_split (s : string) :
  exists pre, s = pre ++ skip_space s /\ all_chars is_int_space pre = true.
Proof.
  induction s as [|c s (pre & E & Hpre)]; simpl.
  - now exists "".
  - destruct (is_int_space c) eqn:Hc.
    + exists (String c pre). simpl. now rewrite Hc, Hpre, <- E.
    + now exists "".
Qed.

Lemma skip_space_empty (s : string) :
  skip_space s = "" -> all_chars is_int_space s = true.
Proof.
  induction s as [|c s IH]; simpl; [reflexivity|].
  destruct (is_int_space c); [exact IH|discriminate].
Qed.

Lemma skip_space_all (s : string) :
  all_chars is_int_space s = true -> skip_space s = "".
Proof.
  induction s as [|c s IH]; simpl; [reflexivity|].
  destruct (is_int_space c); [exact IH|discriminate].
Qed.

Lemma skip_space_app (pre s : string) :
  all_chars is_int_space pre = true -> skip_space (pre ++ s) = skip_space s.
Proof.
  induction pre as [|c pre IH]; simpl; [reflexivity|].
  destruct (is_int_space c); [exact IH|discriminate].
Qed.

Lemma scan_digits_sound (n : nat) :
  forall (s : string) (acc v : Z) (rest : string),
    (String.length s <= n)%nat ->
    scan_digits acc s = Some (v, rest) ->
    exists body, s = body ++ rest /\ digit_tail body.
Proof.
  induction n as [|n IH]; intros s acc v rest Hlen H.
  - destruct s; [|simpl in Hlen; lia].
    simpl in H. injection H as <- <-. exists "". split; [reflexivity|constructor].
  - destruct s as [|c r]; simpl in H.
    + injection H as <- <-. exists "". split; [reflexivity|constructor].
    + simpl in Hlen. destruct (digit_value c) as [d|] eqn:Hd.
      * apply digit_value_some in Hd as (Hc & _).
        apply IH in H as (body & -> & Hb); [|lia].
        exists (String c body). split; [reflexivity|now constructor].
      * destruct (Ascii.eqb_spec c "_") as [->|_].
        -- destruct r as [|c' r']; [discriminate|].
           destruct (digit_value c') as [d|] eqn:Hd'; [|discriminate].
           apply digit_value_some in Hd' as (Hc' & _).
           simpl in Hlen. apply IH in H as (body & -> & Hb); [|lia].
           exists (String "_" (String c' body)).
           split; [reflexivity|now constructor].
        -- injection H as <- <-. exists "". split; [reflexivity|constructor].
Qed.

Lemma scan_number_sound (s : string) (v : Z) (rest : string) :
  scan_number s = Some (v, rest) ->
  exists body, s = body ++ rest /\ digit_run body.
Proof.
  destruct s as [|c r]; simpl; [discriminate|].
  destruct (digit_value c) as [d|] eqn:Hd; [|discriminate].
  apply digit_value_some in Hd as (Hc & _). intros H.
  apply (scan_digits_sound _ _ _ _ _ (le_n _)) in H as (body & -> & Hb).
  exists (String c body). split; [reflexivity|].
  now exists c, body.
Qed.

Lemma split_sign_sound (s : string) (sign : Z) (s2 : string) :
  split_sign s = (sign, s2) ->
  exists sg, s = sg ++ s2 /\ (sg = "" \/ sg = "+" \/ sg = "-").
Proof.
  destruct s as [|c r]; simpl.
  - intros [= <- <-]. exists "". auto.
  - destruct (Ascii.eqb_spec c "+") as [->|_].
    + intros [= <- <-]. exists "+". auto.
    + destruct (Ascii.eqb_spec c "-") as [->|_].
      * intros [= <- <-]. exists "-". auto.
      * intros [= <- <-]. exists "". auto.
Qed.

Lemma int_sound (s : string) (z : Z) : int s = Ok z -> int_literal s.
Proof.
  unfold int. destruct (skip_space_split s) as (pre & Es & Hpre).
  destruct (split_sign (skip_space s)) as [sign s2] eqn:Hsign.
  apply split_sign_sound in Hsign as (sg & E1 & Hsg).
  destruct (scan_number s2) as [[n rest]|] eqn:Hnum; [|discriminate].
  apply scan_number_sound in Hnum as (body & E2 & Hbody).
  destruct (skip_space rest) eqn:Hrest; [|discriminate].
  intros _. exists pre, sg, body, rest.
  repeat split; try assumption.
  - now rewrite <- E2, <- E1.
  - now apply skip_space_empty.
Qed.

Lemma scan_digits_space (acc : Z) (post : string) :
  all_chars is_int_space post = true ->
  scan_digits acc post = Some (acc, post).
Proof.
  destruct post as [|c r]; simpl; [reflexivity|].
  intros H. apply andb_true_iff in H as [Hc _].
  assert (Hd : is_digit c = false).
  { apply whitespace_not_digit. now apply int_space_whitespace. }
  rewrite (digit_value_none c Hd).
  replace (Ascii.eqb c "_") with false; [reflexivity|].
  symmetry. rewrite eqb_code. change (code "_") with 95.
  unfold is_int_space in Hc. lia.
Qed.

Lemma scan_digits_complete (body post : string) :
  digit_tail body ->
  all_chars is_int_space post = true ->
  forall acc, exists v, scan_digits acc (body ++ post) = Some (v, post).
Proof.
  intros Hb Hpost. induction Hb as [|c s Hc _ IH|c s Hc _ IH]; intros acc.
  - exists acc. now apply scan_digits_space.
  - simpl. rewrite (digit_value_digit c Hc). apply IH.
  - cbn [append scan_digits].
    replace (digit_value "_") with (@None Z) by reflexivity.
    replace (Ascii.eqb "_" "_") with true by reflexivity.
    rewrite (digit_value_digit c Hc). apply IH.
Qed.

Lemma int_parts (s : string) (sign : Z) (s2 : string) (v : Z) (post : string) :
  split_sign (skip_space s) = (sign, s2) ->
  scan_number s2 = Some (v, post) ->
  skip_space post = "" ->
  int s = Ok (sign * v).
Proof.
  unfold int. intros -> Hnum Hpost. cbv beta iota.
  now rewrite Hnum, Hpost.
Qed.

Lemma int_complete (s : string) : int_literal s -> exists z, int s = Ok z.
Proof.
  intros (pre & sg & body & post & -> & Hpre & Hsg & (c & t & -> & Hc & Ht) & Hpost).
  pose proof (digit_not_int_space c Hc) as Hns.
  assert (Hplus : Ascii.eqb c "+" = false /\ Ascii.eqb c "-" = false).
  { rewrite !eqb_code. change (code "+") with 43. change (code "-") with 45.
    unfold is_digit in Hc. lia. }
  destruct Hplus as [Hp Hm].
  destruct (scan_digits_complete t post Ht Hpost (code c - 48)) as [v Hv].
  assert (Hnum : scan_number (String c t ++ post) = Some (v, post)).
  { simpl. now rewrite (digit_value_digit c Hc). }
  pose proof (skip_space_all _ Hpost) as Hend.
  destruct Hsg as [->|[->| ->]].
  - exists (1 * v). apply int_parts with (s2 := String c t ++ post) (post := post);
      try assumption.
    rewrite (skip_space_app _ _ Hpre).
    cbn [append skip_space]. rewrite Hns. cbn [split_sign]. now rewrite Hp, Hm.
  - exists (1 * v). apply int_parts with (s2 := String c t ++ post) (post := post);
      try assumption.
    now rewrite (skip_space_app _ _ Hpre).
  - exists (-1 * v). apply int_parts with (s2 := String c t ++ post) (post := post);
      try assumption.
    now rewrite (skip_space_app _ _ Hpre).
Qed.

Lemma int_ok_iff_literal (s : string) :
  (exists z, int s = Ok z) <-> int_literal s.
Proof.
  split; [intros [z H]; now apply (int_sound s z)|apply int_complete].
Qed.

(** ** [str_int] writes the canonical decimal numeral *)

Lemma append_cons_end (a : string) (c : ascii) (b : string) :
  (a ++ String c "") ++ b = a ++ String c b.
Proof.
  induction a as [|x a IH]; simpl; [reflexivity|now rewrite IH].
Qed.

Lemma length_append_end (a : string) (c : ascii) :
  String.length (a ++ String c "") = S (String.length a).
Proof.
  induction a as [|x a IH]; simpl; [reflexivity|now rewrite IH].
Qed.

Lemma all_chars_append_end (p : ascii -> bool) (a : string) (c : ascii) :
  all_chars p a = true -> p c = true -> all_chars p (a ++ String c "") = true.
Proof.
  intros Ha Hc. induction a as [|x a IH]; simpl.
  - now rewrite Hc.
  - simpl in Ha. apply andb_true_iff in Ha as [Hx Ha]. now rewrite Hx, IH.
Qed.

Lemma decimal_acc_append_end (acc : Z) (a : string) (c : ascii) :
  decimal_acc acc (a ++ String c "") = 10 * decimal_acc acc a + (code c - 48).
Proof.
  revert acc. induction a as [|x a IH]; intros acc; simpl; [reflexivity|apply IH].
Qed.

Lemma code_digit_char (d : Z) : 0 <= d <= 9 -> code (digit_char d) = 48 + d.
Proof.
  intros H. unfold code, digit_char. rewrite N_ascii_embedding; lia.
Qed.

Lemma is_digit_digit_char (d : Z) : 0 <= d <= 9 -> is_digit (digit_char d) = true.
Proof.
  intros H. unfold is_digit. rewrite (code_digit_char d H). lia.
Qed.

Lemma startswith_zero (c : ascii) (s : string) :
  startswith (String c s) "0" = (code c =? 48).
Proof.
  change 48 with (code "0"). rewrite <- eqb_code, Ascii.eqb_sym.
  destruct s; cbn [startswith]; apply andb_true_r.
Qed.

Lemma digits_acc_spec (fuel : nat) :
  forall (n : Z) (acc : string),
    0 <= n < 10 ^ (Z.of_nat fuel + 1) ->
    exists ds,
      digits_acc fuel n acc = ds ++ acc /\
      ds <> "" /\
      all_chars is_digit ds = true /\
      (forall a, decimal_acc a ds = a * 10 ^ Z.of_nat (String.length ds) + n) /\
      (0 < n -> startswith ds "0" = false) /\
      (n = 0 -> ds = "0").
Proof.
  assert (Hone : forall n acc, 0 <= n < 10 ->
    exists ds,
      String (digit_char (n mod 10)) acc = ds ++ acc /\
      ds <> "" /\
      all_chars is_digit ds = true /\
      (forall a, decimal_acc a ds = a * 10 ^ Z.of_nat (String.length ds) + n) /\
      (0 < n -> startswith ds "0" = false) /\
      (n = 0 -> ds = "0")).
  { intros n acc Hn. rewrite (Z.mod_small n 10 Hn).
    assert (Hd : 0 <= n <= 9) by lia.
    exists (String (digit_char n) ""). repeat split.
    - discriminate.
    - simpl. now rewrite (is_digit_digit_char n Hd).
    - intros a. cbn [decimal_acc String.length].
      change (Z.of_nat 1) with 1. rewrite Z.pow_1_r, (code_digit_char n Hd). lia.
    - intros Hpos. rewrite startswith_zero, (code_digit_char n Hd). lia.
    - now intros ->. }
  induction fuel as [|fuel IH]; intros n acc Hn.
  - apply Hone. simpl in Hn. lia.
  - cbn [digits_acc]. destruct (n <? 10) eqn:Hlt; [apply Hone; lia|].
    apply Z.ltb_ge in Hlt.
    assert (Hq : 0 <= n / 10 < 10 ^ (Z.of_nat fuel + 1)).
    { split; [apply Z.div_pos; lia|].
      apply Z.div_lt_upper_bound; [lia|].
      replace (Z.of_nat (S fuel) + 1) with (Z.succ (Z.of_nat fuel + 1)) in Hn by lia.
      rewrite Z.pow_succ_r in Hn; lia. }
    destruct (IH (n / 10) (String (digit_char (n mod 10)) acc) Hq)
      as (ds & E & Hne & Hall & Hval & Hlead & _).
    pose proof (Z.mod_pos_bound n 10 ltac:(lia)) as Hm.
    assert (Hd : 0 <= n mod 10 <= 9) by lia.
    assert (Hq1 : 0 < n / 10) by (apply Z.div_str_pos; lia).
    exists (ds ++ String (digit_char (n mod 10)) ""). repeat split.
    + now rewrite append_cons_end.
    + destruct ds; [congruence|discriminate].
    + apply all_chars_append_end; [exact Hall|now apply is_digit_digit_char].
    + intros a. rewrite decimal_acc_append_end, Hval, length_append_end.
      rewrite (code_digit_char _ Hd), Nat2Z.inj_succ, Z.pow_succ_r by lia.
      pose proof (Z.div_mod n 10 ltac:(lia)). lia.
    + intros _. specialize (Hlead Hq1).
      destruct ds as [|c ds]; [congruence|].
      cbn [append]. now rewrite startswith_zero in *.
    + lia.
Qed.

Lemma log2_fuel (n : Z) :
  0 <= n -> 0 <= n < 10 ^ (Z.of_nat (Z.to_nat (Z.log2 n)) + 1).
Proof.
  intros Hn. pose proof (Z.log2_nonneg n) as Hl. rewrite Z2Nat.id by exact Hl.
  split; [exact Hn|].
  destruct (Z.eq_dec n 0) as [->|Hnz]; [reflexivity|].
  destruct (Z.log2_spec n ltac:(lia)) as [_ Hu].
  apply Z.lt_le_trans with (1 := Hu).
  replace (Z.succ (Z.log2 n)) with (Z.log2 n + 1) by lia.
  apply Z.pow_le_mono_l. lia.
Qed.

Lemma str_nonneg_canonical (n : Z) :
  0 <= n -> canonical_decimal n (str_nonneg n).
Proof.
  intros Hn. unfold str_nonneg.
  destruct (digits_acc_spec _ n "" (log2_fuel n Hn))
    as (ds & E & Hne & Hall & Hval & Hlead & Hzero).
  assert (Eds : ds ++ "" = ds).
  { clear. induction ds as [|c ds IH]; simpl; [reflexivity|now rewrite IH]. }
  rewrite E, Eds. repeat split; try assumption.
  - rewrite Hval. lia.
  - intros Hs. destruct (Z.eq_dec n 0) as [E0|N0]; [now apply Hzero|].
    rewrite Hlead in Hs by lia. discriminate.
Qed.

Lemma str_int_canonical (t : Z) :
  exists ds, canonical_decimal (Z.abs t) ds /\
             str_int t = if t <? 0 then String "-" ds else ds.
Proof.
  unfold str_int. destruct (t <? 0) eqn:Ht.
  - apply Z.ltb_lt in Ht. exists (str_nonneg (- t)). split; [|reflexivity].
    rewrite Z.abs_neq by lia. apply str_nonneg_canonical. lia.
  - apply Z.ltb_ge in Ht. exists (str_nonneg t). split; [|reflexivity].
    rewrite Z.abs_eq by lia. now apply str_nonneg_canonical.
Qed.

(** Reading back what [str_int] wrote. *)

Lemma scan_digits_all_digits (ds : string) :
  all_chars is_digit ds = true ->
  forall acc, scan_digits acc ds = Some (decimal_acc acc ds, "").
Proof.
  induction ds as [|c ds IH]; intros H acc; simpl; [reflexivity|].
  simpl in H. apply andb_true_iff in H as [Hc Hds].
  rewrite (digit_value_digit c Hc). now apply IH.
Qed.

Lemma int_canonical (n : Z) (ds : string) :
  canonical_decimal n ds ->
  int ds = Ok n /\ int (String "-" ds) = Ok (- n).
Proof.
  intros (Hne & Hall & Hval & _).
  destruct ds as [|c ds]; [congruence|].
  simpl in Hall. apply andb_true_iff in Hall as [Hc Hds].
  assert (Hnum : scan_number (String c ds) = Some (n, "")).
  { simpl. rewrite (digit_value_digit c Hc), (scan_digits_all_digits ds Hds).
    simpl in Hval. replace (10 * 0 + (code c - 48)) with (code c - 48) in Hval by lia.
    now rewrite Hval. }
  split.
  - replace n with (1 * n) by lia.
    apply int_parts with (s2 := String c ds) (post := ""); try easy.
    cbn [skip_space]. rewrite (digit_not_int_space c Hc). cbn [split_sign].
    rewrite !eqb_code. change (code "+") with 43. change (code "-") with 45.
    unfold is_digit in Hc.
    replace (code c =? 43) with false by lia.
    now replace (code c =? 45) with false by lia.
  - replace (- n) with (-1 * n) by lia.
    now apply int_parts with (s2 := String c ds) (post := "").
Qed.

Lemma int_str_int (t : Z) : int (str_int t) = Ok t.
Proof.
  destruct (str_int_canonical t) as (ds & Hc & E). rewrite E.
  destruct (int_canonical _ _ Hc) as [Hp Hn].
  destruct (t <? 0) eqn:Ht.
  - apply Z.ltb_lt in Ht. rewrite Hn. f_equal. lia.
  - apply Z.ltb_ge in Ht. rewrite Hp. f_equal. lia.
Qed.

(** ** What the mapper yields *)

Section Yield.
Context {Job Key : Type} (self : Job) (key : Key).

Lemma mapper_accepts (line : string) (temp : Z) (q : ascii) :
  (93 <= len line)%nat ->
  int (temp_field line) = Ok temp ->
  temp <> 9999 ->
  String.get 92 line = Some q ->
  good_quality q ->
  mapper self key line = Ok [(slice 15 19 line, temp)].
Proof.
  intros Hlen Hint Htemp Hq Hgood.
  destruct (mapper_parsed self key line temp Hlen Hint) as (q' & Hq' & ->).
  assert (q' = q) as -> by congruence.
  apply good_qualityb_spec in Hgood. rewrite Hgood.
  apply Z.eqb_neq in Htemp. now rewrite Htemp.
Qed.

Lemma mapper_rejects (line : string) (temp : Z) (q : ascii) :
  (93 <= len line)%nat ->
  int (temp_field line) = Ok temp ->
  String.get 92 line = Some q ->
  temp = 9999 \/ ~ good_quality q ->
  mapper self key line = Ok [].
Proof.
  intros Hlen Hint Hq Hbad.
  destruct (mapper_parsed self key line temp Hlen Hint) as (q' & Hq' & ->).
  assert (q' = q) as -> by congruence.
  destruct Hbad as [->|Hbad]; [reflexivity|].
  destruct (good_qualityb q) eqn:E.
  - now apply good_qualityb_spec in E.
  - now rewrite andb_false_r.
Qed.

Lemma emits_inv (line year : string) (temp : Z) :
  emits self key line year temp ->
  (93 <= len line)%nat /\
  year = slice 15 19 line /\
  int (temp_field line) = Ok temp /\
  temp <> 9999 /\
  exists q, String.get 92 line = Some q /\ good_quality q.
Proof.
  intros (out & Hout & Hin).
  destruct (Nat.lt_ge_cases (len line) 93) as [Hshort|Hlen].
  { rewrite (mapper_short self key line Hshort) in Hout.
    injection Hout as <-. destruct Hin. }
  destruct (int (temp_field line)) as [t|e] eqn:Hint.
  2:{ rewrite (mapper_unparsed self key line e Hlen Hint) in Hout.
      injection Hout as <-. destruct Hin. }
  destruct (mapper_parsed self key line t Hlen Hint) as (q & Hq & E).
  rewrite E in Hout.
  destruct (t =? 9999) eqn:Ht; cbn [negb andb] in Hout;
    [injection Hout as <-; destruct Hin|].
  destruct (good_qualityb q) eqn:Hg;
    [|injection Hout as <-; destruct Hin].
  injection Hout as <-. destruct Hin as [[= <- <-]|[]].
  apply Z.eqb_neq in Ht. apply good_qualityb_spec in Hg.
  repeat split; try assumption. now exists q.
Qed.

Lemma mapper_ok (line : string) :
  exists out, mapper self key line = Ok out /\ (List.length out <= 1)%nat.
Proof.
  destruct (Nat.lt_ge_cases (len line) 93) as [Hshort|Hlen].
  { exists []. split; [now apply mapper_short|simpl; lia]. }
  destruct (int (temp_field line)) as [t|e] eqn:Hint.
  2:{ exists []. split; [now apply (mapper_unparsed self key line e)|simpl; lia]. }
  destruct (mapper_parsed self key line t Hlen Hint) as (q & _ & ->).
  destruct (negb (t =? 9999) && good_qualityb q); eexists; split;
    try reflexivity; simpl; lia.
Qed.

End Yield.

(** ** The properties of the mapper *)

Section MapperClaims.
Context {Job Key : Type} (self : Job) (key : Key).

(** C1 (amended): the year of every pair the mapper yields is the
    substring at offsets [15,19) of a line of at least 93 characters, so
    it has exactly 4 characters; the mapper does not look at what these
    characters are. *)
Theorem mapper_year_is_slice (line year : string) (temp : Z) :
  emits self key line year temp ->
  (93 <= len line)%nat /\ year = slice 15 19 line /\ len year = 4%nat.
Proof.
  intros H. apply emits_inv in H as (Hlen & -> & _).
  repeat split; [exact Hlen|].
  apply length_slice; lia.
Qed.

(** A malformed number on a line of 8-bit characters: when the field, one
    leading '+' stripped, is not an integer literal, [int] raises
    ValueError and the mapper yields nothing; a literal does parse. *)
Lemma malformed_number_8bit (line : string) :
  (93 <= len line)%nat ->
  (~ int_literal (temp_field line) ->
     int (temp_field line) = Raise ValueError /\
     mapper self key line = Ok []) /\
  (int_literal (temp_field line) -> exists z, int (temp_field line) = Ok z).
Proof.
  intros Hlen. split; [|apply int_complete].
  intros Hnot. destruct (int (temp_field line)) as [z|e] eqn:Hint.
  - exfalso. apply Hnot. now apply (int_sound _ z).
  - pose proof (int_raises_ValueError _ _ Hint) as ->.
    split; [reflexivity|]. now apply (mapper_unparsed self key line ValueError).
Qed.

(** C3: on a line of at least 93 characters whose temperature field, the
    sign stripped, is "9999", the field parses to 9999 and the mapper
    yields nothing, whatever the quality code. *)
Theorem mapper_sentinel (line : string) :
  (93 <= len line)%nat ->
  temp_field line = "9999" ->
  int (temp_field line) = Ok 9999 /\ mapper self key line = Ok [].
Proof.
  intros Hlen Hfield.
  assert (Hint : int (temp_field line) = Ok 9999) by now rewrite Hfield.
  split; [exact Hint|].
  destruct (get_in_range 92 line) as [q Hq]; [unfold len in Hlen; lia|].
  apply (mapper_rejects self key line 9999 q); auto.
Qed.

(** C4: on a line of at least 93 characters whose quality code, the
    character at offset 92, is not one of '0', '1', '4', '5', '9', the
    mapper yields nothing whatever the temperature; and every pair it
    yields comes from a line whose quality code is one of these. *)
Theorem mapper_quality (line : string) :
  (forall q, (93 <= len line)%nat -> String.get 92 line = Some q ->
             ~ good_quality q -> mapper self key line = Ok []) /\
  (forall year temp, emits self key line year temp ->
     exists q, String.get 92 line = Some q /\ good_quality q).
Proof.
  split.
  - intros q Hlen Hq Hbad.
    destruct (int (temp_field line)) as [t|e] eqn:Hint.
    + apply (mapper_rejects self key line t q); auto.
    + now apply (mapper_unparsed self key line e).
  - intros year temp H. now apply emits_inv in H as (_ & _ & _ & _ & Hq).
Qed.

(** C5: a line of fewer than 93 characters yields nothing; a line of
    exactly 93 characters whose temperature field parses to a value other
    than 9999 and whose quality code is accepted yields its pair. *)
Theorem mapper_length_check (line : string) :
  ((len line < 93)%nat -> mapper self key line = Ok []) /\
  (forall temp q,
     len line = 93%nat ->
     int (temp_field line) = Ok temp -> temp <> 9999 ->
     String.get 92 line = Some q -> good_quality q ->
     mapper self key line = Ok [(slice 15 19 line, temp)]).
Proof.
  split.
  - apply mapper_short.
  - intros temp q Hlen. apply mapper_accepts. lia.
Qed.

(** C6: a leading '+' of the temperature field, and only the first one,
    is removed before the parse, and a leading '-' is parsed with the
    field.  For a field "+" r the mapper yields the value of [int r] when
    that is not 9999 and the quality code is accepted, and nothing when
    [int r] raises; for a field "-" r it does the same with
    [int ("-" r)]; and whatever it yields is such a parse.  The year is
    the substring at [15,19) as it stands.  So the field "+0078" with
    quality '1' yields (year, 78), and the field "-0050" with quality '5'
    yields (year, -50). *)
Theorem mapper_sign (line : string) :
  (forall year temp, emits self key line year temp ->
     year = slice 15 19 line /\
     (forall r, slice 87 92 line = String "+" r -> int r = Ok temp) /\
     (forall r, slice 87 92 line = String "-" r ->
                int (String "-" r) = Ok temp)) /\
  ((93 <= len line)%nat ->
   forall r, slice 87 92 line = String "+" r ->
     (forall temp q,
        int r = Ok temp -> temp <> 9999 ->
        String.get 92 line = Some q -> good_quality q ->
        mapper self key line = Ok [(slice 15 19 line, temp)]) /\
     (int r = Raise ValueError -> mapper self key line = Ok [])) /\
  ((93 <= len line)%nat ->
   forall r, slice 87 92 line = String "-" r ->
     (forall temp q,
        int (String "-" r) = Ok temp -> temp <> 9999 ->
        String.get 92 line = Some q -> good_quality q ->
        mapper self key line = Ok [(slice 15 19 line, temp)]) /\
     (int (String "-" r) = Raise ValueError -> mapper self key line = Ok [])) /\
  ((93 <= len line)%nat -> slice 87 92 line = "+0078" ->
   String.get 92 line = Some "1"%char ->
   mapper self key line = Ok [(slice 15 19 line, 78)]) /\
  ((93 <= len line)%nat -> slice 87 92 line = "-0050" ->
   String.get 92 line = Some "5"%char ->
   mapper self key line = Ok [(slice 15 19 line, -50)]).
Proof.
  assert (Hplus : forall r, slice 87 92 line = String "+" r -> temp_field line = r).
  { intros r E. unfold temp_field. now rewrite E. }
  assert (Hminus : forall r, slice 87 92 line = String "-" r ->
                             temp_field line = String "-" r).
  { intros r E. unfold temp_field. now rewrite E. }
  split; [|split; [|split; [|split]]].
  - intros year temp H. apply emits_inv in H as (_ & -> & Hint & _).
    split; [reflexivity|].
    split; intros r E; [rewrite (Hplus r E) in Hint|rewrite (Hminus r E) in Hint];
      exact Hint.
  - intros Hlen r E. split.
    + intros temp q Hint. rewrite <- (Hplus r E) in Hint.
      now apply mapper_accepts.
    + intros Hint. rewrite <- (Hplus r E) in Hint.
      now apply (mapper_unparsed self key line ValueError).
  - intros Hlen r E. split.
    + intros temp q Hint. rewrite <- (Hminus r E) in Hint.
      now apply mapper_accepts.
    + intros Hint. rewrite <- (Hminus r E) in Hint.
      now apply (mapper_unparsed self key line ValueError).
  - intros Hlen E Hq.
    apply (mapper_accepts self key line 78 "1"); auto.
    + unfold temp_field. now rewrite E.
    + discriminate.
    + unfold good_quality. auto.
  - intros Hlen E Hq.
    apply (mapper_accepts self key line (-50) "5"); auto.
    + unfold temp_field. now rewrite E.
    + discriminate.
    + unfold good_quality. auto.
Qed.

(** C8: on every line the mapper returns without raising and yields at
    most one pair: the character at offset 92 exists whenever the length
    check lets the line through (and only then), and [int] raises nothing
    but ValueError, which the mapper catches. *)
Theorem mapper_total (line : string) :
  (exists out, mapper self key line = Ok out /\ (List.length out <= 1)%nat) /\
  (((len line <? 93)%nat = true /\ getitem line 92 = Raise IndexError) \/
   ((len line <? 93)%nat = false /\ exists q, getitem line 92 = Ok q)) /\
  (forall s, int s = Raise ValueError \/ exists temp, int s = Ok temp).
Proof.
  split; [apply mapper_ok|split].
  - destruct (len line <? 93)%nat eqn:E; [left|right]; split; try reflexivity.
    + apply Nat.ltb_lt in E. unfold getitem.
      rewrite get_out_of_range; [reflexivity|unfold len in E; lia].
    + apply Nat.ltb_ge in E.
      destruct (get_in_range 92 line) as [q Hq]; [unfold len in E; lia|].
      exists (String q ""). unfold getitem. now rewrite Hq.
  - intros s. destruct (int s) as [t|e] eqn:E; [right; now exists t|left].
    now rewrite (int_raises_ValueError s e E).
Qed.

(** C10: only 9999 is the sentinel: a line of at least 93 characters whose
    temperature field parses to -9999, as the field "-9999" does, and
    whose quality code is accepted yields (year, -9999). *)
Theorem mapper_negative_sentinel (line : string) (q : ascii) :
  (93 <= len line)%nat ->
  int (temp_field line) = Ok (-9999) ->
  String.get 92 line = Some q -> good_quality q ->
  mapper self key line = Ok [(slice 15 19 line, -9999)].
Proof.
  intros Hlen Hint Hq Hgood.
  apply (mapper_accepts self key line (-9999) q); auto. discriminate.
Qed.

End MapperClaims.

(** ** The mapper on strings of any code points *)

Section UnicodeMapper.
Variable uni_space : Z -> bool.
Variable uni_decimal : Z -> option Z.
Context {Job Key : Type} (self : Job) (key : Key).

Lemma unicode_startswith_plus (t : Unicode.str) :
  (if Unicode.startswith t (Unicode.of_string "+")
   then Unicode.slice_from 1 t else t) = unicode_strip_plus t.
Proof.
  change (Unicode.of_string "+") with [43].
  destruct t as [|c r]; [reflexivity|].
  cbn [Unicode.startswith unicode_strip_plus]. rewrite (Z.eqb_sym 43 c).
  destruct (c =? 43); [|reflexivity].
  now destruct r.
Qed.

Lemma unicode_int_raises_ValueError (s : Unicode.str) (e : exn) :
  Unicode.int uni_space uni_decimal s = Raise e -> e = ValueError.
Proof. apply int_raises_ValueError. Qed.

Lemma unicode_mapper_unparsed (line : Unicode.str) (e : exn) :
  Unicode.int uni_space uni_decimal (unicode_temp_field line) = Raise e ->
  Unicode.mapper uni_space uni_decimal self key line = Ok [].
Proof.
  intros E. unfold Unicode.mapper.
  destruct (Unicode.len line <? 93)%nat; [reflexivity|].
  rewrite unicode_startswith_plus. fold (unicode_temp_field line).
  destruct (Unicode.is_empty (unicode_temp_field line)
            || Unicode.isspace uni_space (unicode_temp_field line));
    [reflexivity|].
  rewrite E. now rewrite (unicode_int_raises_ValueError _ _ E).
Qed.

(** C2 (amended): take a line of any code points and of at least 93
    characters, and its temperature field with one leading '+' stripped.
    [int] reads whitespace beyond ASCII as a space and a Unicode decimal
    digit as the ASCII digit of its value; when the field so read is not
    an integer literal (whitespace, an optional sign, digits with single
    underscores between them allowed, whitespace), [int] raises
    ValueError, the mapper yields nothing and raises nothing; a field
    that is such a literal does parse. *)
Theorem mapper_malformed_number (line : Unicode.str) :
  (93 <= Unicode.len line)%nat ->
  (~ int_literal
       (Unicode.ascii_form uni_space uni_decimal (unicode_temp_field line)) ->
     Unicode.int uni_space uni_decimal (unicode_temp_field line)
       = Raise ValueError /\
     Unicode.mapper uni_space uni_decimal self key line = Ok []) /\
  (int_literal
     (Unicode.ascii_form uni_space uni_decimal (unicode_temp_field line)) ->
   exists z,
     Unicode.int uni_space uni_decimal (unicode_temp_field line) = Ok z).
Proof.
  intros Hlen. split; [|apply int_complete].
  intros Hnot.
  destruct (Unicode.int uni_space uni_decimal (unicode_temp_field line))
    as [z|e] eqn:Hint.
  - exfalso. apply Hnot. now apply (int_sound _ z).
  - pose proof (unicode_int_raises_ValueError _ _ Hint) as ->.
    split; [reflexivity|]. now apply (unicode_mapper_unparsed line ValueError).
Qed.

End UnicodeMapper.

(** ** The two mappers agree on lines of 8-bit characters *)

Section Relabel.
Variable f : ascii -> ascii.
Hypothesis f_space : forall c, is_int_space (f c) = is_int_space c.
Hypothesis f_digit : forall c, digit_value (f c) = digit_value c.
Hypothesis f_plus : forall c, Ascii.eqb (f c) "+" = Ascii.eqb c "+".
Hypothesis f_minus : forall c, Ascii.eqb (f c) "-" = Ascii.eqb c "-".
Hypothesis f_under : forall c, Ascii.eqb (f c) "_" = Ascii.eqb c "_".

Lemma skip_space_map (s : string) :
  skip_space (map_string f s) = map_string f (skip_space s).
Proof.
  induction s as [|c s IH]; [reflexivity|].
  cbn [map_string skip_space]. rewrite f_space.
  destruct (is_int_space c); [exact IH|reflexivity].
Qed.

Lemma scan_digits_map (n : nat) :
  forall (s : string) (acc : Z),
    (String.length s <= n)%nat ->
    scan_digits acc (map_string f s) =
    match scan_digits acc s with
    | Some (v, rest) => Some (v, map_string f rest)
    | None => None
    end.
Proof.
  induction n as [|n IH]; intros s acc Hlen.
  - destruct s; [reflexivity|simpl in Hlen; lia].
  - destruct s as [|c r]; [reflexivity|].
    cbn [map_string scan_digits]. rewrite f_digit, f_under.
    simpl in Hlen. destruct (digit_value c) as [d|]; [apply IH; lia|].
    destruct (Ascii.eqb c "_"); [|reflexivity].
    destruct r as [|c' r']; [reflexivity|].
    cbn [map_string]. rewrite f_digit.
    destruct (digit_value c'); [|reflexivity].
    apply IH. simpl in Hlen. lia.
Qed.

Lemma scan_number_map (s : string) :
  scan_number (map_string f s) =
  match scan_number s with
  | Some (v, rest) => Some (v, map_string f rest)
  | None => None
  end.
Proof.
  destruct s as [|c r]; [reflexivity|].
  cbn [map_string scan_number]. rewrite f_digit.
  destruct (digit_value c); [|reflexivity].
  apply (scan_digits_map _ _ _ (le_n _)).
Qed.

Lemma split_sign_map (s : string) :
  split_sign (map_string f s) =
  (fst (split_sign s), map_string f (snd (split_sign s))).
Proof.
  destruct s as [|c r]; [reflexivity|].
  cbn [map_string split_sign]. rewrite f_plus, f_minus.
  destruct (Ascii.eqb c "+"); [reflexivity|].
  destruct (Ascii.eqb c "-"); reflexivity.
Qed.

Lemma int_map (s : string) : int (map_string f s) = int s.
Proof.
  unfold int. rewrite skip_space_map, split_sign_map.
  destruct (split_sign (skip_space s)) as [sign s2]. cbn [fst snd].
  rewrite scan_number_map.
  destruct (scan_number s2) as [[v rest]|]; [|reflexivity].
  rewrite skip_space_map. now destruct (skip_space rest).
Qed.

End Relabel.

Ltac bool_cases :=
  repeat match goal with
  | |- context [?a <=? ?b] => destruct (Z.leb_spec a b)
  | |- context [?a <? ?b] => destruct (Z.ltb_spec a b)
  | |- context [?a =? ?b] => destruct (Z.eqb_spec a b)
  end; cbn [andb orb negb]; try reflexivity; try lia.

Lemma latin1_whitespace (c : ascii) :
  Unicode.is_whitespace latin1_space (code c) = is_whitespace c.
Proof.
  unfold Unicode.is_whitespace, latin1_space, is_whitespace.
  pose proof (code_range c). bool_cases.
Qed.

Lemma code_ascii_of (n : Z) : 0 <= n < 256 -> code (ascii_of_N (Z.to_N n)) = n.
Proof.
  intros H. unfold code. rewrite N_ascii_embedding; lia.
Qed.

Lemma to_decimal_range (uni_decimal : Z -> option Z) (c d : Z) :
  Unicode.to_decimal uni_decimal c = Some d -> 0 <= d <= 9.
Proof.
  unfold Unicode.to_decimal. destruct (c <? 128).
  - destruct ((48 <=? c) && (c <=? 57)) eqn:E; [|discriminate].
    intros [= <-]. lia.
  - destruct (uni_decimal c) as [d'|]; [|discriminate].
    destruct ((0 <=? d') && (d' <=? 9)) eqn:E; [|discriminate].
    intros [= <-]. lia.
Qed.

(** Whatever the database, the string [int] parses is made of ASCII
    characters only. *)
Lemma ascii_form_is_ascii (uni_space : Z -> bool) (uni_decimal : Z -> option Z)
    (s : Unicode.str) :
  all_chars (fun c => code c <? 127)
    (Unicode.ascii_form uni_space uni_decimal s) = true.
Proof.
  induction s as [|c s IH]; [reflexivity|].
  unfold Unicode.ascii_form in *. cbn [map string_of_list_ascii all_chars].
  rewrite IH, andb_true_r. apply Z.ltb_lt.
  unfold Unicode.to_ascii. destruct (Z.ltb_spec c 127).
  - destruct (Z.le_gt_cases 0 c).
    + rewrite code_ascii_of; lia.
    + replace (Z.to_N c) with 0%N by lia. reflexivity.
  - destruct (Unicode.is_whitespace uni_space c); [reflexivity|].
    destruct (Unicode.to_decimal uni_decimal c) as [d|] eqn:E; [|reflexivity].
    apply to_decimal_range in E. rewrite code_ascii_of; lia.
Qed.

Lemma code_latin1_to_ascii (c : ascii) :
  code (latin1_to_ascii c) =
  if code c <? 127 then code c
  else if (code c =? 133) || (code c =? 160) then 32 else 63.
Proof.
  unfold latin1_to_ascii, Unicode.to_ascii, Unicode.is_whitespace,
    Unicode.to_decimal, latin1_space, latin1_decimal.
  pose proof (code_range c) as Hc.
  destruct (Z.ltb_spec (code c) 127).
  - apply code_ascii_of. lia.
  - destruct (Z.ltb_spec (code c) 128).
    + assert (E : code c = 127) by lia. rewrite E. reflexivity.
    + destruct ((code c =? 133) || (code c =? 160)); reflexivity.
Qed.

Ltac latin1_cases c :=
  rewrite code_latin1_to_ascii; pose proof (code_range c);
  destruct (Z.ltb_spec (code c) 127); [bool_cases|];
  destruct (Z.eqb_spec (code c) 133); [cbn [orb]; bool_cases|];
  destruct (Z.eqb_spec (code c) 160); cbn [orb]; bool_cases.

Lemma latin1_to_ascii_space (c : ascii) :
  is_int_space (latin1_to_ascii c) = is_int_space c.
Proof.
  unfold is_int_space. latin1_cases c.
Qed.

Lemma latin1_to_ascii_digit (c : ascii) :
  digit_value (latin1_to_ascii c) = digit_value c.
Proof.
  unfold digit_value, is_digit. latin1_cases c.
Qed.

Lemma latin1_to_ascii_eqb (c : ascii) (k : ascii) :
  code k < 127 -> code k <> 32 -> code k <> 63 ->
  Ascii.eqb (latin1_to_ascii c) k = Ascii.eqb c k.
Proof.
  intros H1 H2 H3. rewrite !eqb_code. latin1_cases c.
Qed.

Lemma of_string_cons (c : ascii) (s : string) :
  Unicode.of_string (String c s) = code c :: Unicode.of_string s.
Proof. reflexivity. Qed.

Lemma ascii_form_of_string (s : string) :
  Unicode.ascii_form latin1_space latin1_decimal (Unicode.of_string s)
  = map_string latin1_to_ascii s.
Proof.
  induction s as [|c s IH]; [reflexivity|].
  rewrite of_string_cons. unfold Unicode.ascii_form in *.
  cbn [map string_of_list_ascii map_string]. now rewrite IH.
Qed.

Lemma int_of_string (s : string) :
  Unicode.int latin1_space latin1_decimal (Unicode.of_string s) = int s.
Proof.
  unfold Unicode.int. rewrite ascii_form_of_string.
  apply int_map.
  - apply latin1_to_ascii_space.
  - apply latin1_to_ascii_digit.
  - intros c. now apply latin1_to_ascii_eqb.
  - intros c. now apply latin1_to_ascii_eqb.
  - intros c. now apply latin1_to_ascii_eqb.
Qed.

Lemma len_of_string (s : string) : Unicode.len (Unicode.of_string s) = len s.
Proof.
  induction s as [|c s IH]; [reflexivity|].
  rewrite of_string_cons. unfold Unicode.len, len in *. simpl. now rewrite IH.
Qed.

Lemma slice_from_of_string (i : nat) (s : string) :
  Unicode.slice_from i (Unicode.of_string s) = Unicode.of_string (slice_from i s).
Proof.
  revert s. induction i as [|i IH]; intros s; [reflexivity|].
  destruct s as [|c s]; [reflexivity|].
  rewrite of_string_cons. apply IH.
Qed.

Lemma firstn_of_string (n : nat) (s : string) :
  firstn n (Unicode.of_string s) = Unicode.of_string (slice_to n s).
Proof.
  revert s. induction n as [|n IH]; intros s; [reflexivity|].
  destruct s as [|c s]; [reflexivity|].
  rewrite of_string_cons. cbn [firstn slice_to]. rewrite of_string_cons.
  now rewrite IH.
Qed.

Lemma slice_of_string (i j : nat) (s : string) :
  Unicode.slice i j (Unicode.of_string s) = Unicode.of_string (slice i j s).
Proof.
  unfold Unicode.slice, slice.
  change (skipn i (Unicode.of_string s))
    with (Unicode.slice_from i (Unicode.of_string s)).
  now rewrite slice_from_of_string, firstn_of_string.
Qed.

Lemma startswith_of_string (s p : string) :
  Unicode.startswith (Unicode.of_string s) (Unicode.of_string p)
  = startswith s p.
Proof.
  revert s. induction p as [|a p IH]; intros s.
  - now destruct s.
  - destruct s as [|b s]; [reflexivity|].
    rewrite !of_string_cons. cbn [Unicode.startswith startswith].
    now rewrite IH, eqb_code.
Qed.

Lemma contains_of_string (hay needle : string) :
  Unicode.contains (Unicode.of_string hay) (Unicode.of_string needle)
  = contains hay needle.
Proof.
  induction hay as [|c hay IH].
  - cbn [Unicode.contains contains].
    now rewrite <- (startswith_of_string "" needle).
  - rewrite of_string_cons. cbn [Unicode.contains contains].
    rewrite <- of_string_cons, startswith_of_string. now rewrite IH.
Qed.

Lemma isspace_of_string (s : string) :
  Unicode.isspace latin1_space (Unicode.of_string s) = isspace s.
Proof.
  assert (H : forall t, forallb (Unicode.is_whitespace latin1_space)
                          (Unicode.of_string t) = all_chars is_whitespace t).
  { induction t as [|c t IH]; [reflexivity|].
    rewrite of_string_cons. cbn [forallb all_chars].
    now rewrite latin1_whitespace, IH. }
  destruct s as [|c s]; [reflexivity|].
  unfold Unicode.isspace, isspace. rewrite of_string_cons, <- of_string_cons.
  apply H.
Qed.

Lemma getitem_of_string (s : string) (i : nat) :
  Unicode.getitem (Unicode.of_string s) i =
  match getitem s i with
  | Ok q => Ok (Unicode.of_string q)
  | Raise e => Raise e
  end.
Proof.
  unfold Unicode.getitem, getitem. revert i.
  induction s as [|c s IH]; intros i.
  - now destruct i.
  - rewrite of_string_cons. destruct i as [|i]; [reflexivity|].
    cbn [nth_error String.get]. apply IH.
Qed.

(** On a line of 8-bit characters the mapper on code points, with the
    database of these characters, does what [mapper] does. *)
Lemma unicode_mapper_of_string {Job Key : Type} (self : Job) (key : Key)
    (line : string) :
  Unicode.mapper latin1_space latin1_decimal self key (Unicode.of_string line)
  = match mapper self key line with
    | Ok out => Ok (unicode_pairs out)
    | Raise e => Raise e
    end.
Proof.
  unfold Unicode.mapper, mapper.
  rewrite len_of_string. destruct (len line <? 93)%nat; [reflexivity|].
  rewrite !slice_of_string, startswith_of_string, slice_from_of_string.
  set (t := if startswith (slice 87 92 line) "+"
            then slice_from 1 (slice 87 92 line) else slice 87 92 line).
  replace (if startswith (slice 87 92 line) "+"
           then Unicode.of_string (slice_from 1 (slice 87 92 line))
           else Unicode.of_string (slice 87 92 line))
    with (Unicode.of_string t) by (unfold t; now destruct (startswith _ _)).
  rewrite isspace_of_string, int_of_string.
  replace (Unicode.is_empty (Unicode.of_string t)) with (String.eqb t "")
    by now destruct t.
  destruct (String.eqb t "" || isspace t); [reflexivity|].
  destruct (int t) as [temp|[|]]; try reflexivity.
  rewrite getitem_of_string.
  destruct (getitem line 92) as [q|e]; [|reflexivity].
  cbn [bind]. rewrite contains_of_string.
  destruct (negb (temp =? 9999) && contains "01459" q); reflexivity.
Qed.

(** ** The mapper as a generator in a world *)

Lemma effects_mapper_run (key : Effects.value) (line : string) (w : Effects.world) :
  Effects.mapper key line w =
  {| Effects.yielded :=
       match mapper tt tt line with Ok out => out | Raise _ => [] end;
     Effects.ending :=
       match mapper tt tt line with Ok _ => Ok tt | Raise e => Raise e end;
     Effects.world_after := w |}.
Proof.
  unfold Effects.mapper, mapper.
  destruct (len line <? 93)%nat; [reflexivity|].
  destruct (String.eqb
              (if startswith (slice 87 92 line) "+"
               then slice_from 1 (slice 87 92 line) else slice 87 92 line) ""
            || isspace
                 (if startswith (slice 87 92 line) "+"
                  then slice_from 1 (slice 87 92 line) else slice 87 92 line));
    [reflexivity|].
  destruct (int (if startswith (slice 87 92 line) "+"
                 then slice_from 1 (slice 87 92 line) else slice 87 92 line))
    as [temp|[|]]; try reflexivity.
  unfold Effects.gbind, Effects.lift, getitem, bind. cbn [Effects.ending].
  destruct (String.get 92 line) as [q|]; [|reflexivity].
  cbn [Effects.yielded Effects.world_after].
  destruct (negb (temp =? 9999) && contains "01459" (String q ""));
    reflexivity.
Qed.

(** A generator that reads the world gives results that depend on it. *)
Lemma attribute_reader_depends_on_world :
  Effects.yielded
    (Effects.attribute_reader "n"
       {| Effects.attributes := [("n", Effects.VInt 1)]; Effects.globals := [] |})
  <> Effects.yielded
       (Effects.attribute_reader "n"
          {| Effects.attributes := [("n", Effects.VInt 2)]; Effects.globals := [] |}).
Proof. vm_compute. discriminate. Qed.

(** C9: two runs of the mapper on the same line, from whatever worlds
    (attributes of the job object, globals) and with whatever input keys,
    yield the same pairs and end the same way; a run leaves the world as it
    found it; and what it yields is the result of [mapper]. *)
Theorem mapper_deterministic {Job Key : Type} (self : Job) (key : Key)
    (key1 key2 : Effects.value) (w1 w2 : Effects.world) (line : string) :
  Effects.yielded (Effects.mapper key1 line w1)
    = Effects.yielded (Effects.mapper key2 line w2) /\
  Effects.ending (Effects.mapper key1 line w1)
    = Effects.ending (Effects.mapper key2 line w2) /\
  Effects.world_after (Effects.mapper key1 line w1) = w1 /\
  Effects.ending (Effects.mapper key1 line w1) = Ok tt /\
  mapper self key line = Ok (Effects.yielded (Effects.mapper key1 line w1)).
Proof.
  rewrite !effects_mapper_run. cbn [Effects.yielded Effects.ending Effects.world_after].
  destruct (mapper_ok tt tt line) as (out & E & _).
  change (mapper self key line) with (mapper tt tt line).
  rewrite E. repeat split.
Qed.

(** ** The property of the reducer *)

(** C7: for every year and every list of temperatures the reducer yields
    one pair for each temperature, in the order of the list, nothing merged
    and nothing dropped: the key None and the line made of the year, one
    space and the temperature in decimal, that is a '-' for a negative
    value and then the digits of the absolute value with no sign and no
    zero in front; [int] reads the number back. *)
Theorem reducer_lines {Job : Type} (self : Job) (year : string) (temps : list Z) :
  reducer self year temps =
    map (fun temp => (None, year ++ " " ++ str_int temp)) temps /\
  List.length (reducer self year temps) = List.length temps /\
  (forall temp, exists ds,
      canonical_decimal (Z.abs temp) ds /\
      str_int temp = (if temp <? 0 then String "-" ds else ds) /\
      int (str_int temp) = Ok temp).
Proof.
  assert (E : reducer self year temps =
              map (fun temp => (None, year ++ " " ++ str_int temp)) temps).
  { induction temps as [|t ts IH]; simpl; [reflexivity|].
    now rewrite IH. }
  split; [exact E|split].
  - rewrite E. apply length_map.
  - intros temp. destruct (str_int_canonical temp) as (ds & Hc & Hs).
    exists ds. repeat split; try assumption; try apply Hc. apply int_str_int.
Qed.

(** ** The properties at concrete records *)

(** C1 at the record of 1950 with field "+0078" and quality '1'. *)
Lemma mapper_year_is_slice_witness :
  emits tt tt (record "1950" "+0078" "1") "1950" 78 /\
  ((93 <= len (record "1950" "+0078" "1"))%nat /\
   "1950" = slice 15 19 (record "1950" "+0078" "1") /\
   len "1950" = 4%nat).
Proof.
  assert (H : emits tt tt (record "1950" "+0078" "1") "1950" 78).
  { exists [("1950", 78)]. split; [vm_compute; reflexivity|left; reflexivity]. }
  split; [exact H|].
  apply (mapper_year_is_slice tt tt (record "1950" "+0078" "1") "1950" 78 H).
Defined.

(** C1 as the specification states it fails: the year "ABCD" is yielded. *)
Lemma year_digits_counterexample :
  ~ (forall line year temp,
       emits tt tt line year temp ->
       len year = 4%nat /\ all_chars is_digit year = true).
Proof.
  intros H.
  destruct (H (record "ABCD" "+0078" "1") "ABCD" 78) as [_ Hd].
  - exists [("ABCD", 78)]. split; [vm_compute; reflexivity|left; reflexivity].
  - vm_compute in Hd. discriminate.
Qed.

(** C2 with the example database, at the record with the field "12x45"
    and at the record whose field is 00078 in Arabic-Indic digits. *)
Lemma mapper_malformed_number_witness :
  ((93 <= Unicode.len (unicode_record "1950" (Unicode.of_string "12x45") "1"))%nat /\
   ~ int_literal
       (Unicode.ascii_form Unicode.example_space Unicode.example_decimal
          (unicode_temp_field
             (unicode_record "1950" (Unicode.of_string "12x45") "1"))) /\
   Unicode.int Unicode.example_space Unicode.example_decimal
     (unicode_temp_field (unicode_record "1950" (Unicode.of_string "12x45") "1"))
   = Raise ValueError /\
   Unicode.mapper Unicode.example_space Unicode.example_decimal tt tt
     (unicode_record "1950" (Unicode.of_string "12x45") "1") = Ok []) /\
  ((93 <= Unicode.len
            (unicode_record "1950" arabic_indic_00078 "1"))%nat /\
   int_literal
     (Unicode.ascii_form Unicode.example_space Unicode.example_decimal
        (unicode_temp_field
           (unicode_record "1950" arabic_indic_00078 "1"))) /\
   exists z,
     Unicode.int Unicode.example_space Unicode.example_decimal
       (unicode_temp_field
          (unicode_record "1950" arabic_indic_00078 "1"))
     = Ok z).
Proof.
  assert (Hlen1 : (93 <= Unicode.len
                          (unicode_record "1950" (Unicode.of_string "12x45") "1"))%nat).
  { apply Nat.leb_le. vm_compute. reflexivity. }
  assert (Hnot : ~ int_literal
                     (Unicode.ascii_form Unicode.example_space
                        Unicode.example_decimal
                        (unicode_temp_field
                           (unicode_record "1950" (Unicode.of_string "12x45") "1")))).
  { intros Hl. apply int_complete in Hl as [z Hz]. vm_compute in Hz.
    discriminate. }
  assert (Hlen2 : (93 <= Unicode.len
                          (unicode_record "1950" arabic_indic_00078 "1"))%nat).
  { apply Nat.leb_le. vm_compute. reflexivity. }
  assert (Hlit : int_literal
                   (Unicode.ascii_form Unicode.example_space
                      Unicode.example_decimal
                      (unicode_temp_field
                         (unicode_record "1950" arabic_indic_00078 "1")))).
  { apply (int_sound _ 78). vm_compute. reflexivity. }
  split.
  - split; [exact Hlen1|]. split; [exact Hnot|].
    exact (proj1 (mapper_malformed_number Unicode.example_space
                    Unicode.example_decimal tt tt _ Hlen1) Hnot).
  - split; [exact Hlen2|]. split; [exact Hlit|].
    exact (proj2 (mapper_malformed_number Unicode.example_space
                    Unicode.example_decimal tt tt _ Hlen2) Hlit).
Defined.

(** With the example database the mapper yields 78 for that field of
    Arabic-Indic digits, and 78 again for the field "   78". *)
Lemma unicode_digits_emitted :
  Unicode.mapper Unicode.example_space Unicode.example_decimal tt tt
    (unicode_record "1950" arabic_indic_00078 "1")
  = Ok [(Unicode.of_string "1950", 78)] /\
  Unicode.mapper Unicode.example_space Unicode.example_decimal tt tt
    (unicode_record "1950" (Unicode.of_string "   78") "1")
  = Ok [(Unicode.of_string "1950", 78)].
Proof. split; vm_compute; reflexivity. Qed.

(** C2 as the specification states it fails: the field "   78" has
    characters that are not digits, and parses to 78. *)
Lemma stray_char_counterexample :
  ~ (forall line,
       (93 <= len line)%nat ->
       has_stray_char (temp_field line) = true ->
       int (temp_field line) = Raise ValueError /\
       mapper tt tt line = Ok []).
Proof.
  intros H.
  destruct (H (record "1950" "   78" "1")) as [Hint _].
  - apply Nat.leb_le. vm_compute. reflexivity.
  - vm_compute. reflexivity.
  - vm_compute in Hint. discriminate.
Qed.

(** C3 at the record with the field "+9999" and quality '1'. *)
Lemma mapper_sentinel_witness :
  (93 <= len (record "1950" "+9999" "1"))%nat /\
  temp_field (record "1950" "+9999" "1") = "9999" /\
  int (temp_field (record "1950" "+9999" "1")) = Ok 9999 /\
  mapper tt tt (record "1950" "+9999" "1") = Ok [].
Proof.
  assert (Hlen : (93 <= len (record "1950" "+9999" "1"))%nat).
  { apply Nat.leb_le. vm_compute. reflexivity. }
  assert (Hf : temp_field (record "1950" "+9999" "1") = "9999").
  { vm_compute. reflexivity. }
  split; [exact Hlen|]. split; [exact Hf|].
  exact (mapper_sentinel tt tt _ Hlen Hf).
Defined.

(** C4 at a record with quality '2' and at a record with quality '1'. *)
Lemma mapper_quality_witness :
  mapper tt tt (record "1950" "+0078" "2") = Ok [] /\
  exists q, String.get 92 (record "1950" "+0078" "1") = Some q /\ good_quality q.
Proof.
  split.
  - apply (proj1 (mapper_quality tt tt (record "1950" "+0078" "2")) "2"%char).
    + apply Nat.leb_le. vm_compute. reflexivity.
    + vm_compute. reflexivity.
    + unfold good_quality. intros [E|[E|[E|[E|E]]]]; discriminate E.
  - apply (proj2 (mapper_quality tt tt (record "1950" "+0078" "1")) "1950" 78).
    exists [("1950", 78)]. split; [vm_compute; reflexivity|left; reflexivity].
Defined.

(** C5 at a line of 92 characters and at a record of exactly 93. *)
Lemma mapper_length_check_witness :
  mapper tt tt (filler 92) = Ok [] /\
  mapper tt tt (record "1950" "+0078" "1")
    = Ok [(slice 15 19 (record "1950" "+0078" "1"), 78)].
Proof.
  split.
  - apply (proj1 (mapper_length_check tt tt (filler 92))).
    apply Nat.ltb_lt. vm_compute. reflexivity.
  - apply (proj2 (mapper_length_check tt tt (record "1950" "+0078" "1"))
             78 "1"%char).
    + vm_compute. reflexivity.
    + vm_compute. reflexivity.
    + discriminate.
    + vm_compute. reflexivity.
    + unfold good_quality. auto.
Defined.

(** C6 at records with the fields "++123", "+++12", "- 050", "+0078" and
    "-0050". *)
Lemma mapper_sign_witness :
  int "+123" = Ok 123 /\
  mapper tt tt (record "1950" "++123" "1")
    = Ok [(slice 15 19 (record "1950" "++123" "1"), 123)] /\
  mapper tt tt (record "1950" "+++12" "1") = Ok [] /\
  mapper tt tt (record "1950" "- 050" "1") = Ok [] /\
  mapper tt tt (record "1950" "+0078" "1")
    = Ok [(slice 15 19 (record "1950" "+0078" "1"), 78)] /\
  mapper tt tt (record "1950" "-0050" "5")
    = Ok [(slice 15 19 (record "1950" "-0050" "5"), -50)].
Proof.
  assert (H : emits tt tt (record "1950" "++123" "1") "1950" 123).
  { exists [("1950", 123)]. split; [vm_compute; reflexivity|left; reflexivity]. }
  assert (Hlen : forall t, String.length t = 5%nat ->
                           (93 <= len (record "1950" t "1"))%nat).
  { intros [|c1 [|c2 [|c3 [|c4 [|c5 [|c6 t]]]]]] Ht; try discriminate Ht.
    apply Nat.leb_le. reflexivity. }
  split; [|split; [|split; [|split; [|split]]]].
  - apply (proj1 (proj2 (proj1 (mapper_sign tt tt (record "1950" "++123" "1"))
                           "1950" 123 H))).
    vm_compute. reflexivity.
  - apply (proj1 (proj1 (proj2 (mapper_sign tt tt (record "1950" "++123" "1")))
                    (Hlen "++123" eq_refl) "+123" eq_refl)
             123 "1"%char).
    + vm_compute. reflexivity.
    + discriminate.
    + vm_compute. reflexivity.
    + unfold good_quality. auto.
  - apply (proj2 (proj1 (proj2 (mapper_sign tt tt (record "1950" "+++12" "1")))
                    (Hlen "+++12" eq_refl) "++12" eq_refl)).
    vm_compute. reflexivity.
  - apply (proj2 (proj1 (proj2 (proj2 (mapper_sign tt tt (record "1950" "- 050" "1"))))
                    (Hlen "- 050" eq_refl) " 050" eq_refl)).
    vm_compute. reflexivity.
  - apply (proj1 (proj2 (proj2 (proj2 (mapper_sign tt tt (record "1950" "+0078" "1")))))).
    + apply Nat.leb_le. vm_compute. reflexivity.
    + vm_compute. reflexivity.
    + vm_compute. reflexivity.
  - apply (proj2 (proj2 (proj2 (proj2 (mapper_sign tt tt (record "1950" "-0050" "5")))))).
    + apply Nat.leb_le. vm_compute. reflexivity.
    + vm_compute. reflexivity.
    + vm_compute. reflexivity.
Defined.

(** C10 at the record with the field "-9999" and quality '1'. *)
Lemma mapper_negative_sentinel_witness :
  (93 <= len (record "1950" "-9999" "1"))%nat /\
  int (temp_field (record "1950" "-9999" "1")) = Ok (-9999) /\
  mapper tt tt (record "1950" "-9999" "1")
    = Ok [(slice 15 19 (record "1950" "-9999" "1"), -9999)].
Proof.
  assert (Hlen : (93 <= len (record "1950" "-9999" "1"))%nat).
  { apply Nat.leb_le. vm_compute. reflexivity. }
  assert (Hint : int (temp_field (record "1950" "-9999" "1")) = Ok (-9999)).
  { vm_compute. reflexivity. }
  split; [exact Hlen|]. split; [exact Hint|].
  apply (mapper_negative_sentinel tt tt _ "1"%char Hlen Hint).
  - vm_compute. reflexivity.
  - unfold good_quality. auto.
Defined.

(** ** Further properties of the mapper *)

Lemma isspace_all_whitespace (s : string) :
  isspace s = true -> all_chars is_whitespace s = true.
Proof. destruct s; [discriminate|trivial]. Qed.

Lemma length_slice_from_1 (s : string) :
  String.length (slice_from 1 s) = (String.length s - 1)%nat.
Proof. apply length_slice_from. Qed.

Section MapperFacts.
Context {Job Key : Type} (self : Job) (key : Key).

(** X1: on a line of at least 93 characters the temperature substring has
    exactly 5 characters, and what is left of it once a leading '+' is
    removed has 4 characters when there was a '+' and 5 otherwise; so the
    string the mapper compares with the empty string is never empty. *)
Theorem temp_str_length (line : string) :
  (93 <= len line)%nat ->
  len (slice 87 92 line) = 5%nat /\
  len (if startswith (slice 87 92 line) "+"
       then slice_from 1 (slice 87 92 line) else slice 87 92 line)
    = (if startswith (slice 87 92 line) "+" then 4 else 5)%nat /\
  String.eqb (if startswith (slice 87 92 line) "+"
              then slice_from 1 (slice 87 92 line) else slice 87 92 line) ""
    = false.
Proof.
  intros Hlen.
  assert (H5 : len (slice 87 92 line) = 5%nat) by (apply length_slice; lia).
  assert (Hs : len (if startswith (slice 87 92 line) "+"
                    then slice_from 1 (slice 87 92 line) else slice 87 92 line)
               = (if startswith (slice 87 92 line) "+" then 4 else 5)%nat).
  { destruct (startswith (slice 87 92 line) "+"); [|exact H5].
    unfold len in *. rewrite length_slice_from_1, H5. reflexivity. }
  repeat split; [exact H5|exact Hs|].
  destruct (if startswith (slice 87 92 line) "+"
            then slice_from 1 (slice 87 92 line) else slice 87 92 line)
    as [|c r] eqn:E; [|reflexivity].
  destruct (startswith (slice 87 92 line) "+"); discriminate Hs.
Qed.

(** X2: on a line of at least 93 characters whose temperature field, the
    '+' removed, is made of whitespace only (as [str.isspace] judges it),
    the mapper yields nothing and raises nothing; the test is a shortcut,
    since [int] raises ValueError on every such field. *)
Theorem mapper_blank_field (line : string) :
  (93 <= len line)%nat ->
  isspace (temp_field line) = true ->
  mapper self key line = Ok [] /\ int (temp_field line) = Raise ValueError.
Proof.
  intros Hlen Hsp.
  pose proof (int_blank _ (isspace_all_whitespace _ Hsp)) as Hint.
  split; [|exact Hint].
  now apply (mapper_unparsed self key line ValueError).
Qed.

(** X3: the mapper yields exactly the pair (year, temp) if and only if the
    line has at least 93 characters, year is its substring at [15,19), the
    temperature field with one leading '+' removed parses to temp, temp is
    not 9999 and the character at offset 92 is an accepted quality code. *)
Theorem mapper_yields_iff (line year : string) (temp : Z) :
  mapper self key line = Ok [(year, temp)] <->
  ((93 <= len line)%nat /\
   year = slice 15 19 line /\
   int (temp_field line) = Ok temp /\
   temp <> 9999 /\
   exists q, String.get 92 line = Some q /\ good_quality q).
Proof.
  split.
  - intros H. apply (emits_inv self key).
    exists [(year, temp)]. split; [exact H|now left].
  - intros (Hlen & -> & Hint & Htemp & q & Hq & Hgood).
    now apply (mapper_accepts self key line temp q).
Qed.

(** X4: the mapper yields nothing if and only if the line is shorter than
    93 characters, or its temperature field does not parse, or parses to
    9999, or the quality code is not an accepted one. *)
Theorem mapper_empty_iff (line : string) :
  mapper self key line = Ok [] <->
  ((len line < 93)%nat \/
   int (temp_field line) = Raise ValueError \/
   int (temp_field line) = Ok 9999 \/
   exists q, String.get 92 line = Some q /\ ~ good_quality q).
Proof.
  split.
  - intros H.
    destruct (Nat.lt_ge_cases (len line) 93) as [Hshort|Hlen]; [now left|right].
    destruct (int (temp_field line)) as [t|e] eqn:Hint.
    2:{ left. now rewrite (int_raises_ValueError _ _ Hint). }
    right. destruct (Z.eq_dec t 9999) as [->|Ht]; [now left|right].
    destruct (get_in_range 92 line) as [q Hq]; [unfold len in Hlen; lia|].
    exists q. split; [exact Hq|]. intros Hgood.
    rewrite (mapper_accepts self key line t q Hlen Hint Ht Hq Hgood) in H.
    discriminate.
  - intros [Hshort|[Hraise|[H9|(q & Hq & Hbad)]]].
    + now apply mapper_short.
    + destruct (Nat.lt_ge_cases (len line) 93) as [Hshort|Hlen];
        [now apply mapper_short|].
      now apply (mapper_unparsed self key line ValueError).
    + destruct (Nat.lt_ge_cases (len line) 93) as [Hshort|Hlen];
        [now apply mapper_short|].
      destruct (get_in_range 92 line) as [q Hq]; [unfold len in Hlen; lia|].
      apply (mapper_rejects self key line 9999 q); auto.
    + destruct (Nat.lt_ge_cases (len line) 93) as [Hshort|Hlen];
        [now apply mapper_short|].
      destruct (int (temp_field line)) as [t|e] eqn:Hint.
      * apply (mapper_rejects self key line t q); auto.
      * now apply (mapper_unparsed self key line e).
Qed.

End MapperFacts.

(** ** The range of the temperatures *)

Lemma pow10_pos (n : nat) : 0 < 10 ^ Z.of_nat n.
Proof. apply Z.pow_pos_nonneg; lia. Qed.

Lemma pow10_succ (n : nat) : 10 ^ Z.of_nat (S n) = 10 * 10 ^ Z.of_nat n.
Proof. rewrite Nat2Z.inj_succ, Z.pow_succ_r; lia. Qed.

Lemma pow10_le (m n : nat) : (m <= n)%nat -> 10 ^ Z.of_nat m <= 10 ^ Z.of_nat n.
Proof. intros H. apply Z.pow_le_mono_r; lia. Qed.

Lemma scan_digits_bound (n : nat) :
  forall (s : string) (acc v : Z) (rest : string),
    (String.length s <= n)%nat ->
    0 <= acc ->
    scan_digits acc s = Some (v, rest) ->
    0 <= v < (acc + 1) * 10 ^ Z.of_nat (String.length s).
Proof.
  induction n as [|n IH]; intros s acc v rest Hlen Hacc H.
  - destruct s; [|simpl in Hlen; lia].
    simpl in H. injection H as <- _. simpl. lia.
  - destruct s as [|c r]; cbn [scan_digits] in H.
    + injection H as <- _. simpl. lia.
    + simpl in Hlen. cbn [String.length]. rewrite pow10_succ.
      pose proof (pow10_pos (String.length r)) as Hp.
      destruct (digit_value c) as [d|] eqn:Hd.
      * apply digit_value_some in Hd as (_ & _ & Hd).
        apply IH in H; [|lia|lia].
        set (P := 10 ^ Z.of_nat (String.length r)) in *. nia.
      * destruct (Ascii.eqb c "_").
        -- destruct r as [|c' r']; [discriminate|].
           destruct (digit_value c') as [d|] eqn:Hd'; [|discriminate].
           apply digit_value_some in Hd' as (_ & _ & Hd').
           simpl in Hlen. apply IH in H; [|lia|lia].
           cbn [String.length] in *. rewrite pow10_succ in *.
           pose proof (pow10_pos (String.length r')) as Hp'.
           set (P := 10 ^ Z.of_nat (String.length r')) in *. nia.
        -- injection H as <- _.
           set (P := 10 ^ Z.of_nat (String.length r)) in *. nia.
Qed.

Lemma scan_number_bound (s : string) (v : Z) (rest : string) :
  scan_number s = Some (v, rest) ->
  0 <= v < 10 ^ Z.of_nat (String.length s).
Proof.
  destruct s as [|c r]; cbn [scan_number]; [discriminate|].
  destruct (digit_value c) as [d|] eqn:Hd; [|discriminate].
  apply digit_value_some in Hd as (_ & _ & Hd). intros H.
  apply (scan_digits_bound _ _ _ _ _ (le_n _)) in H; [|lia].
  cbn [String.length]. rewrite pow10_succ.
  pose proof (pow10_pos (String.length r)).
  set (P := 10 ^ Z.of_nat (String.length r)) in *. nia.
Qed.

Lemma length_skip_space (s : string) :
  (String.length (skip_space s) <= String.length s)%nat.
Proof.
  induction s as [|c s IH]; simpl; [lia|].
  destruct (is_int_space c); simpl; lia.
Qed.

Lemma split_sign_length (s : string) (sign : Z) (s2 : string) :
  split_sign s = (sign, s2) ->
  (sign = 1 /\ (String.length s2 <= String.length s)%nat) \/
  (sign = -1 /\ (S (String.length s2) <= String.length s)%nat).
Proof.
  destruct s as [|c r]; simpl.
  - intros [= <- <-]. left. simpl. lia.
  - destruct (Ascii.eqb c "+"); [intros [= <- <-]; left; lia|].
    destruct (Ascii.eqb c "-"); intros [= <- <-]; [right|left]; simpl; lia.
Qed.

(** A string of at most [S n] characters that [int] accepts is the numeral
    of an integer strictly between [-10^n] and [10^(n+1)]. *)
Lemma int_bound (s : string) (z : Z) (n : nat) :
  (String.length s <= S n)%nat ->
  int s = Ok z ->
  - 10 ^ Z.of_nat n < z < 10 ^ Z.of_nat (S n).
Proof.
  intros Hlen. unfold int.
  pose proof (length_skip_space s) as Hsk.
  destruct (split_sign (skip_space s)) as [sign s2] eqn:Hsign.
  apply split_sign_length in Hsign.
  destruct (scan_number s2) as [[v rest]|] eqn:Hnum; [|discriminate].
  apply scan_number_bound in Hnum.
  destruct (skip_space rest); [|discriminate]. intros [= <-].
  pose proof (pow10_pos n) as Hp. rewrite pow10_succ.
  destruct Hsign as [[-> Hl]|[-> Hl]].
  - pose proof (pow10_le (String.length s2) (S n) ltac:(lia)) as Hle.
    rewrite pow10_succ in Hle. lia.
  - pose proof (pow10_le (String.length s2) n ltac:(lia)) as Hle. lia.
Qed.

Lemma strip_plus_length (s : string) :
  (String.length (strip_plus s) <= String.length s)%nat.
Proof.
  destruct s as [|c r]; simpl; [lia|].
  destruct (Ascii.eqb c "+"); simpl; lia.
Qed.

(** X5: every temperature the mapper yields lies between -9999 and 99999:
    the field has 5 characters, so it holds at most 5 digits, or a '-' and
    at most 4. *)
Theorem mapper_temp_range {Job Key : Type} (self : Job) (key : Key)
    (line year : string) (temp : Z) :
  emits self key line year temp ->
  -9999 <= temp <= 99999 /\ temp <> 9999.
Proof.
  intros H. apply emits_inv in H as (Hlen & _ & Hint & Hne & _).
  split; [|exact Hne].
  assert (H5 : (String.length (temp_field line) <= 5)%nat).
  { unfold temp_field. pose proof (strip_plus_length (slice 87 92 line)) as Hs.
    pose proof (length_slice 87 92 line ltac:(lia) ltac:(lia)) as Hl.
    unfold len in Hl. lia. }
  apply (int_bound _ _ 4 H5) in Hint.
  change (10 ^ Z.of_nat 4) with 10000 in Hint.
  change (10 ^ Z.of_nat 5) with 100000 in Hint. lia.
Qed.

(** ** The columns the mapper reads *)

Lemma slice_to_slice_to (m n : nat) (s : string) :
  (m <= n)%nat -> slice_to m (slice_to n s) = slice_to m s.
Proof.
  revert n s. induction m as [|m IH]; intros n s H; [reflexivity|].
  destruct n as [|n]; [lia|].
  destruct s as [|c s]; [reflexivity|].
  cbn [slice_to]. f_equal. apply IH. lia.
Qed.

Lemma get_slice_to (j n : nat) (s : string) :
  (j < n)%nat -> String.get j (slice_to n s) = String.get j s.
Proof.
  revert n s. induction j as [|j IH]; intros n s H;
    (destruct n as [|n]; [lia|]); (destruct s as [|c s]; [reflexivity|]);
    cbn [slice_to String.get]; [reflexivity|].
  apply IH. lia.
Qed.

Lemma get_slice_from (i j : nat) (s : string) :
  String.get j (slice_from i s) = String.get (i + j) s.
Proof.
  revert s. induction i as [|i IH]; intros s; [reflexivity|].
  destruct s as [|c s]; cbn [slice_from Nat.add String.get].
  - now destruct j.
  - apply IH.
Qed.

Lemma slice_narrow (i j k : nat) (s : string) :
  (j <= k)%nat -> slice i j s = slice_to (j - i) (slice i k s).
Proof.
  intros H. unfold slice. symmetry. apply slice_to_slice_to. lia.
Qed.

Lemma get_in_slice (i k j : nat) (s : string) :
  (i <= j < k)%nat -> String.get j s = String.get (j - i) (slice i k s).
Proof.
  intros H. unfold slice. rewrite get_slice_to by lia.
  rewrite get_slice_from. f_equal. lia.
Qed.

(** X6: the mapper reads a line of at least 93 characters only at the
    offsets [15,19) and [87,93): two such lines that agree there give the
    same result, whatever the other columns and whatever follows offset 93
    hold. *)
Theorem mapper_columns {Job Key : Type} (self : Job) (key : Key)
    (line1 line2 : string) :
  (93 <= len line1)%nat -> (93 <= len line2)%nat ->
  slice 15 19 line1 = slice 15 19 line2 ->
  slice 87 93 line1 = slice 87 93 line2 ->
  mapper self key line1 = mapper self key line2.
Proof.
  intros H1 H2 Hy Hf.
  assert (Ht : slice 87 92 line1 = slice 87 92 line2).
  { rewrite (slice_narrow 87 92 93 line1), (slice_narrow 87 92 93 line2) by lia.
    now rewrite Hf. }
  assert (Hq : String.get 92 line1 = String.get 92 line2).
  { rewrite (get_in_slice 87 93 92 line1), (get_in_slice 87 93 92 line2) by lia.
    now rewrite Hf. }
  unfold mapper, getitem.
  replace (len line1 <? 93)%nat with false by (symmetry; apply Nat.ltb_ge; lia).
  replace (len line2 <? 93)%nat with false by (symmetry; apply Nat.ltb_ge; lia).
  now rewrite Hy, Ht, Hq.
Qed.

(** ** Further properties of the reducer *)

Lemma slice_to_append (a b : string) : slice_to (String.length a) (a ++ b) = a.
Proof. induction a as [|c a IH]; simpl; [now destruct b|now rewrite IH]. Qed.

Lemma slice_from_append (a b : string) :
  slice_from (String.length a) (a ++ b) = b.
Proof. induction a as [|c a IH]; simpl; [reflexivity|exact IH]. Qed.

Lemma length_append (a b : string) :
  String.length (a ++ b) = (String.length a + String.length b)%nat.
Proof. induction a as [|c a IH]; simpl; [reflexivity|now rewrite IH]. Qed.

Lemma format_line_decode (year : string) (temp : Z) :
  slice 0 (len year) (format_line year temp) = year /\
  getitem (format_line year temp) (len year) = Ok " " /\
  int (slice_from (S (len year)) (format_line year temp)) = Ok temp.
Proof.
  unfold format_line, slice, len. repeat split.
  - rewrite Nat.sub_0_r. cbn [slice_from]. apply slice_to_append.
  - unfold getitem.
    rewrite <- (Nat.add_0_r (String.length year)), <- get_slice_from.
    now rewrite slice_from_append.
  - replace (S (String.length year)) with (String.length (year ++ " "))
      by (rewrite length_append; simpl; lia).
    replace (year ++ " " ++ str_int temp) with ((year ++ " ") ++ str_int temp)
      by (clear; induction year as [|c y IH]; simpl; [reflexivity|now rewrite IH]).
    rewrite slice_from_append. apply int_str_int.
Qed.

Lemma format_line_inj (year1 year2 : string) (temp1 temp2 : Z) :
  len year1 = len year2 ->
  format_line year1 temp1 = format_line year2 temp2 ->
  year1 = year2 /\ temp1 = temp2.
Proof.
  intros Hlen E.
  destruct (format_line_decode year1 temp1) as (Hy1 & _ & Ht1).
  destruct (format_line_decode year2 temp2) as (Hy2 & _ & Ht2).
  rewrite E, Hlen in Hy1, Ht1. split; congruence.
Qed.

(** X7: the line the reducer writes can be read back: its first
    characters are the year, then comes one space, and [int] applied to
    what follows gives the temperature; so a pair whose year has the same
    length and whose line is the same is the same pair. *)
Theorem format_line_read_back (year : string) (temp : Z) :
  slice 0 (len year) (format_line year temp) = year /\
  getitem (format_line year temp) (len year) = Ok " " /\
  int (slice_from (S (len year)) (format_line year temp)) = Ok temp /\
  (forall year2 temp2,
     len year = len year2 ->
     format_line year temp = format_line year2 temp2 ->
     year = year2 /\ temp = temp2).
Proof.
  destruct (format_line_decode year temp) as (Hy & Hsp & Ht).
  repeat split; try assumption; now apply (format_line_inj year year2 temp temp2).
Qed.

(** X8: the reducer works through the temperatures from left to right:
    its output on two sequences one after the other is its output on the
    first followed by its output on the second, so feeding one year's
    temperatures in pieces changes nothing. *)
Theorem reducer_append {Job : Type} (self : Job) (year : string)
    (temps1 temps2 : list Z) :
  reducer self year (temps1 ++ temps2)
  = (reducer self year temps1 ++ reducer self year temps2)%list.
Proof.
  induction temps1 as [|t ts IH]; simpl; [reflexivity|now rewrite IH].
Qed.

(** X9: the reducer loses nothing: the sequence of temperatures can be
    recovered from its output, so two sequences that give the same output
    for a year are the same sequence. *)
Theorem reducer_injective {Job : Type} (self : Job) (year : string)
    (temps1 temps2 : list Z) :
  reducer self year temps1 = reducer self year temps2 -> temps1 = temps2.
Proof.
  revert temps2. induction temps1 as [|t ts IH]; intros [|u us] H;
    try discriminate; [reflexivity|].
  cbn [reducer] in H. injection H as Hline Hrest.
  apply (format_line_inj year year t u eq_refl) in Hline as [_ ->].
  f_equal. now apply IH.
Qed.

(** ** From the record to the output line *)

Lemma decimal_acc_lower (ds : string) :
  all_chars is_digit ds = true ->
  forall a, 0 <= a -> a * 10 ^ Z.of_nat (String.length ds) <= decimal_acc a ds.
Proof.
  induction ds as [|c ds IH]; intros H a Ha; cbn [decimal_acc String.length].
  - simpl. lia.
  - simpl in H. apply andb_true_iff in H as [Hc Hds].
    unfold is_digit in Hc. rewrite pow10_succ.
    pose proof (pow10_pos (String.length ds)) as Hp.
    specialize (IH Hds (10 * a + (code c - 48)) ltac:(lia)).
    set (P := 10 ^ Z.of_nat (String.length ds)) in *. nia.
Qed.

Lemma canonical_length (n : Z) (ds : string) (k : nat) :
  canonical_decimal n ds ->
  n < 10 ^ Z.of_nat (S k) ->
  (1 <= String.length ds <= S k)%nat.
Proof.
  intros (Hne & Hall & Hval & Hlead) Hn.
  destruct ds as [|c ds]; [congruence|]. cbn [String.length].
  split; [lia|].
  destruct (Nat.le_gt_cases (String.length ds) k) as [Hle|Hgt]; [lia|exfalso].
  simpl in Hall. apply andb_true_iff in Hall as [Hc Hds].
  rewrite startswith_zero in Hlead. unfold is_digit in Hc.
  assert (Hc1 : 1 <= code c - 48).
  { destruct (code c =? 48) eqn:E; [|lia].
    specialize (Hlead eq_refl). injection Hlead as _ ->. simpl in Hgt. lia. }
  cbn [decimal_acc] in Hval.
  pose proof (decimal_acc_lower ds Hds (10 * 0 + (code c - 48)) ltac:(lia)) as Hlow.
  pose proof (pow10_le (S k) (String.length ds) Hgt) as Hle.
  pose proof (pow10_pos (String.length ds)) as Hp.
  set (P := 10 ^ Z.of_nat (String.length ds)) in *. nia.
Qed.

Lemma str_int_length (t : Z) (k : nat) :
  - 10 ^ Z.of_nat k < t < 10 ^ Z.of_nat (S k) ->
  (1 <= String.length (str_int t) <= S k)%nat.
Proof.
  intros Ht. destruct (str_int_canonical t) as (ds & Hc & E). rewrite E.
  destruct (t <? 0) eqn:Hneg.
  - apply Z.ltb_lt in Hneg. cbn [String.length].
    destruct k as [|k]; [simpl in Ht; lia|].
    apply (canonical_length _ _ k) in Hc; lia.
  - apply Z.ltb_ge in Hneg. apply (canonical_length _ _ k) in Hc; lia.
Qed.

(** The number [str] writes is never longer than the string [int] read it
    from. *)
Lemma str_int_shortest (s : string) (z : Z) :
  int s = Ok z -> (1 <= len (str_int z) <= len s)%nat.
Proof.
  intros H. unfold len. destruct s as [|c r] eqn:Es; [discriminate|].
  rewrite <- Es in *.
  assert (Hl : String.length s = S (String.length r)) by now rewrite Es.
  rewrite Hl. apply str_int_length.
  apply (int_bound s z (String.length r)); [lia|exact H].
Qed.

(** X10: from the record to the output line: for a pair the mapper yields,
    the line the reducer writes has between 6 and 10 characters, starts
    with the 4 characters at [15,19) of the record followed by one space,
    and the number after the space parses to the integer the temperature
    field parsed to. *)
Theorem record_to_line {Job Key : Type} (self : Job) (key : Key)
    (line year : string) (temp : Z) :
  emits self key line year temp ->
  reducer self year [temp] = [(None, format_line year temp)] /\
  (6 <= len (format_line year temp) <= 10)%nat /\
  slice 0 4 (format_line year temp) = slice 15 19 line /\
  getitem (format_line year temp) 4 = Ok " " /\
  int (slice_from 5 (format_line year temp)) = int (temp_field line).
Proof.
  intros H. apply emits_inv in H as (Hlen & Hy & Hint & _).
  assert (H4 : len year = 4%nat) by (rewrite Hy; apply length_slice; lia).
  destruct (format_line_decode year temp) as (Dy & Dsp & Dt).
  rewrite H4 in Dy, Dsp, Dt.
  split; [reflexivity|]. split; [|now rewrite Dy, Dsp, Dt, Hint, <- Hy].
  assert (H5 : (String.length (temp_field line) <= 5)%nat).
  { unfold temp_field. pose proof (strip_plus_length (slice 87 92 line)) as Hs.
    pose proof (length_slice 87 92 line ltac:(lia) ltac:(lia)) as Hl.
    unfold len in Hl. lia. }
  pose proof (str_int_shortest _ _ Hint) as Hs.
  unfold format_line, len in *. rewrite !length_append. simpl String.length. lia.
Qed.

(** ** The further properties at concrete records *)

(** X1 at the record with the field "+0078". *)
Lemma temp_str_length_witness :
  (93 <= len (record "1950" "+0078" "1"))%nat /\
  len (slice 87 92 (record "1950" "+0078" "1")) = 5%nat /\
  len (slice_from 1 (slice 87 92 (record "1950" "+0078" "1"))) = 4%nat.
Proof.
  assert (Hlen : (93 <= len (record "1950" "+0078" "1"))%nat).
  { apply Nat.leb_le. vm_compute. reflexivity. }
  split; [exact Hlen|].
  destruct (temp_str_length (record "1950" "+0078" "1") Hlen) as (H5 & H4 & _).
  split; [exact H5|exact H4].
Defined.

(** X2 at the record whose field is five spaces. *)
Lemma mapper_blank_field_witness :
  (93 <= len (record "1950" "     " "1"))%nat /\
  isspace (temp_field (record "1950" "     " "1")) = true /\
  mapper tt tt (record "1950" "     " "1") = Ok [] /\
  int (temp_field (record "1950" "     " "1")) = Raise ValueError.
Proof.
  assert (Hlen : (93 <= len (record "1950" "     " "1"))%nat).
  { apply Nat.leb_le. vm_compute. reflexivity. }
  assert (Hsp : isspace (temp_field (record "1950" "     " "1")) = true).
  { vm_compute. reflexivity. }
  split; [exact Hlen|]. split; [exact Hsp|].
  exact (mapper_blank_field tt tt _ Hlen Hsp).
Defined.

(** X3 at the record with the field "+0078" and quality '1', in both
    directions. *)
Lemma mapper_yields_iff_witness :
  mapper tt tt (record "1950" "+0078" "1") = Ok [("1950", 78)] /\
  int (temp_field (record "1950" "+0078" "1")) = Ok 78.
Proof.
  assert (H : mapper tt tt (record "1950" "+0078" "1") = Ok [("1950", 78)]).
  { apply (proj2 (mapper_yields_iff tt tt (record "1950" "+0078" "1") "1950" 78)).
    split; [apply Nat.leb_le; vm_compute; reflexivity|].
    split; [vm_compute; reflexivity|].
    split; [vm_compute; reflexivity|].
    split; [discriminate|].
    exists "1"%char. split; [vm_compute; reflexivity|].
    unfold good_quality. auto. }
  split; [exact H|].
  exact (proj1 (proj2 (proj2 (proj1 (mapper_yields_iff tt tt _ "1950" 78) H)))).
Defined.

(** X4 at the record with quality '3'. *)
Lemma mapper_empty_iff_witness :
  mapper tt tt (record "1950" "+0078" "3") = Ok [].
Proof.
  apply (proj2 (mapper_empty_iff tt tt (record "1950" "+0078" "3"))).
  right. right. right. exists "3"%char.
  split; [vm_compute; reflexivity|].
  unfold good_quality. intros [E|[E|[E|[E|E]]]]; discriminate E.
Defined.

(** X5 at the records with the fields "-9999" and "99999", which reach
    both ends of the range. *)
Lemma mapper_temp_range_witness :
  (emits tt tt (record "1950" "-9999" "1") "1950" (-9999) /\
   -9999 <= -9999 <= 99999 /\ -9999 <> 9999) /\
  (emits tt tt (record "1950" "99999" "1") "1950" 99999 /\
   -9999 <= 99999 <= 99999 /\ 99999 <> 9999).
Proof.
  assert (H1 : emits tt tt (record "1950" "-9999" "1") "1950" (-9999)).
  { exists [("1950", -9999)]. split; [vm_compute; reflexivity|left; reflexivity]. }
  assert (H2 : emits tt tt (record "1950" "99999" "1") "1950" 99999).
  { exists [("1950", 99999)]. split; [vm_compute; reflexivity|left; reflexivity]. }
  split; (split; [eassumption|]).
  - exact (mapper_temp_range tt tt _ _ _ H1).
  - exact (mapper_temp_range tt tt _ _ _ H2).
Defined.

(** X6 at a record and the same record with other filler and a tail. *)
Lemma mapper_columns_witness :
  mapper tt tt (record "1950" "+0078" "1")
  = mapper tt tt (filler 8 ++ "station" ++ "1950" ++ filler 68 ++ "+0078" ++ "1"
                  ++ "more columns").
Proof.
  apply mapper_columns.
  - apply Nat.leb_le. vm_compute. reflexivity.
  - apply Nat.leb_le. vm_compute. reflexivity.
  - vm_compute. reflexivity.
  - vm_compute. reflexivity.
Defined.

(** X7 at the line of the year 1950 and the temperature -20, against the
    line of another pair. *)
Lemma format_line_read_back_witness :
  int (slice_from 5 (format_line "1950" (-20))) = Ok (-20) /\
  (len "1950" = len "1950" /\
   format_line "1950" (-20) = format_line "1950" (-20) /\
   "1950" = "1950" /\ -20 = -20).
Proof.
  destruct (format_line_read_back "1950" (-20)) as (_ & _ & Ht & Hinj).
  split; [exact Ht|].
  split; [reflexivity|]. split; [reflexivity|].
  apply (Hinj "1950" (-20)); reflexivity.
Defined.

(** X9 at two equal outputs of the year 1950. *)
Lemma reducer_injective_witness :
  reducer tt "1950" [100; -20; 100] = reducer tt "1950" [100; -20; 100] /\
  [100; -20; 100] = [100; -20; 100].
Proof.
  split; [reflexivity|].
  apply (reducer_injective tt "1950" [100; -20; 100] [100; -20; 100]).
  reflexivity.
Defined.

(** X10 at the record with the field "-0050" and quality '5'. *)
Lemma record_to_line_witness :
  emits tt tt (record "1950" "-0050" "5") "1950" (-50) /\
  reducer tt "1950" [-50] = [(None, format_line "1950" (-50))] /\
  (6 <= len (format_line "1950" (-50)) <= 10)%nat.
Proof.
  assert (H : emits tt tt (record "1950" "-0050" "5") "1950" (-50)).
  { exists [("1950", -50)]. split; [vm_compute; reflexivity|left; reflexivity]. }
  split; [exact H|].
  destruct (record_to_line tt tt _ _ _ H) as (Hr & Hl & _).
  split; [exact Hr|exact Hl].
Defined.
